(** * The [/a2ui] development-server middleware

    A shallow embedding of the Vite plugin that receives A2UI client
    messages over HTTP, keeps the last announced capability catalog and
    turns generation requests into one or two chat-completion calls.

    Conventions of the embedding:
    - a JavaScript string is a [string]; every character stands for one
      code unit, so the model covers text whose code units are below 256;
    - a JavaScript value that came out of [JSON.parse] is a [json]; a
      value that may also be [undefined] is a [value] ([None] is
      [undefined]);
    - the module-level variables [catalog] and [client], the response
      object [res] and the traffic with the model provider are the fields
      of one [machine], threaded through a state-and-exception monad;
    - requests are handled one after the other: the handler of a request
      runs to its end (or hangs on the provider) before the next arrives. *)

From Stdlib Require Import ZArith String Ascii List Bool Lia DecimalString.
From stdpp Require Import gmap strings.
Import ListNotations.

Open Scope string_scope.

(** ** JavaScript values and the built-ins the handler relies on *)

Module Js.

(** The double-quote character, and a helper to write JSON texts with
    single quotes standing for double quotes. *)
Definition dquote : ascii := "034"%char.
Definition dq : string := String dquote EmptyString.

Fixpoint sq (s : string) : string :=
  match s with
  | EmptyString => EmptyString
  | String c t => String (if Ascii.eqb c "'"%char then dquote else c) (sq t)
  end.

(** A JSON number is kept as the finite decimal it was written as,
    [mantissa * 10 ^ exponent]. *)
#[warnings="-register-all"]
Inductive json : Type :=
| JNull
| JBool (b : bool)
| JNum (mantissa exponent : Z)
| JStr (s : string)
| JArr (items : list json)
| JObj (fields : list (string * json)).

Definition value : Type := option json.
Definition undefined : value := None.

(** A thrown value, reduced to what a template literal prints of it:
    an [Error] object prints as [name: message]. *)
Record exn : Type := mkExn { exn_name : string; exn_message : string }.

Definition Error (msg : string) : exn := mkExn "Error" msg.
(** The messages of errors raised by the engine itself are implementation
    defined; only their names are fixed by the language. *)
Definition TypeError (msg : string) : exn := mkExn "TypeError" msg.
Definition SyntaxError (msg : string) : exn := mkExn "SyntaxError" msg.

(** [Error.prototype.toString], which is what [`${err}`] calls. *)
Definition toString (e : exn) : string :=
  if String.eqb (exn_name e) "" then exn_message e
  else if String.eqb (exn_message e) "" then exn_name e
  else exn_name e ++ ": " ++ exn_message e.

(** [ToBoolean] of a number read by [JSON.parse]: the decimal is rounded
    to the nearest double, which is zero exactly when the decimal is zero
    or at most [2^-1075] in magnitude. *)
Definition number_is_zero (m e : Z) : bool :=
  (m =? 0)%Z || ((e <? 0)%Z && (Z.abs m * 2 ^ 1075 <=? 10 ^ (- e))%Z).

Definition truthy_json (j : json) : bool :=
  match j with
  | JNull => false
  | JBool b => b
  | JNum m e => negb (number_is_zero m e)
  | JStr s => negb (String.eqb s "")
  | JArr _ | JObj _ => true
  end.

(** [ToBoolean]. *)
Definition truthy (v : value) : bool :=
  match v with
  | None => false
  | Some j => truthy_json j
  end.

Definition truthy_str (v : option string) : bool :=
  match v with
  | None => false
  | Some s => negb (String.eqb s "")
  end.

(** [a || b] on possibly undefined strings. *)
Definition or_else (a b : option string) : option string :=
  if truthy_str a then a else b.

Fixpoint assoc (k : string) (fields : list (string * json)) : option json :=
  match fields with
  | [] => None
  | (k', v) :: rest => if String.eqb k k' then Some v else assoc k rest
  end.

(** [v.k], for the property names the handler reads
    ([clientUiCapabilities], [userAction], [request], [dynamicCatalog],
    [imageData], [instructions]): none of them is inherited from a
    prototype, so only an object's own fields answer; reading a property
    of [null] or [undefined] throws. *)
Definition get_prop (v : value) (k : string) : exn + value :=
  match v with
  | None => inl (TypeError ("Cannot read properties of undefined (reading '" ++ k ++ "')"))
  | Some JNull => inl (TypeError ("Cannot read properties of null (reading '" ++ k ++ "')"))
  | Some (JObj fields) => inr (assoc k fields)
  | Some _ => inr undefined
  end.

(** [k in v], for the same property names: an object answers by its own
    fields, an array has none of them, anything else is not an object and
    makes the operator throw. *)
Definition has_prop (k : string) (v : value) : exn + bool :=
  match v with
  | Some (JObj fields) => inr (match assoc k fields with Some _ => true | None => false end)
  | Some (JArr _) => inr false
  | _ => inl (TypeError ("Cannot use 'in' operator to search for '" ++ k ++ "' in a value that is not an object"))
  end.

Fixpoint drop (n : nat) (s : string) : string :=
  match n, s with
  | O, _ => s
  | S n', String _ t => drop n' t
  | S _, EmptyString => EmptyString
  end.

(** [s.substring(n)] for a non-negative [n]. *)
Definition substring (s : string) (n : nat) : string := drop n s.

(** *** The regular expression of the MIME prefix

    The pattern is [data:], then a capturing group of any number of
    characters, then a semicolon. The dot of the group matches any
    character but a line terminator, and the star is greedy. *)
Definition is_line_terminator (c : ascii) : bool :=
  Ascii.eqb c "010"%char || Ascii.eqb c "013"%char.

(** The capture of the group matched at the head of [rest]: the longest
    terminator-free prefix that is followed by a semicolon. *)
Fixpoint capture_upto_semicolon (rest : string) : option string :=
  match rest with
  | EmptyString => None
  | String c t =>
      if is_line_terminator c then None
      else match capture_upto_semicolon t with
           | Some p => Some (String c p)
           | None => if Ascii.eqb c ";"%char then Some EmptyString else None
           end
  end.

(** [exec(s)?.at(1)] for that pattern: the first capture group of the
    leftmost match, [None] ([undefined]) when the pattern does not match. *)
Fixpoint exec_data_mime (s : string) : option string :=
  match s with
  | EmptyString => None
  | String _ t =>
      match (if String.prefix "data:" s then capture_upto_semicolon (drop 5 s) else None) with
      | Some m => Some m
      | None => exec_data_mime t
      end
  end.

(** *** [JSON.stringify] *)

Definition hex_digit (n : N) : ascii :=
  match n with
  | 0%N => "0" | 1%N => "1" | 2%N => "2" | 3%N => "3" | 4%N => "4"
  | 5%N => "5" | 6%N => "6" | 7%N => "7" | 8%N => "8" | 9%N => "9"
  | 10%N => "a" | 11%N => "b" | 12%N => "c" | 13%N => "d" | 14%N => "e"
  | _ => "f"
  end%char.

(** One character of a quoted JSON string: the quote, the backslash and
    the control characters are escaped, everything else is copied. *)
Definition quote_char (c : ascii) : string :=
  let n := N_of_ascii c in
  if Ascii.eqb c dquote then String "\" dq
  else if Ascii.eqb c "\" then "\\"
  else if (n =? 8)%N then "\b"
  else if (n =? 9)%N then "\t"
  else if (n =? 10)%N then "\n"
  else if (n =? 12)%N then "\f"
  else if (n =? 13)%N then "\r"
  else if (n <? 32)%N then
    "\u00" ++ String (hex_digit (n / 16)) (String (hex_digit (n mod 16)) EmptyString)
  else String c EmptyString.

Fixpoint quote_chars (s : string) : string :=
  match s with
  | EmptyString => EmptyString
  | String c t => quote_char c ++ quote_chars t
  end.

Definition quote (s : string) : string := dq ++ quote_chars s ++ dq.

Definition string_of_Z (z : Z) : string := NilZero.string_of_int (Z.to_int z).

(** The handler serialises object literals made of strings only. For the
    sake of a total function a number is written back as its decimal,
    with an exponent part when it has one; the digits an engine prints for
    a number are not modelled. *)
Fixpoint JSON_stringify (j : json) : string :=
  match j with
  | JNull => "null"
  | JBool true => "true"
  | JBool false => "false"
  | JNum m e => if (e =? 0)%Z then string_of_Z m else string_of_Z m ++ "e" ++ string_of_Z e
  | JStr s => quote s
  | JArr items =>
      "[" ++ (fix elements (l : list json) : string :=
                match l with
                | [] => ""
                | x :: r => JSON_stringify x ++ match r with [] => "" | _ => "," ++ elements r end
                end) items ++ "]"
  | JObj fields =>
      "{" ++ (fix members (l : list (string * json)) : string :=
                match l with
                | [] => ""
                | (k, x) :: r =>
                    quote k ++ ":" ++ JSON_stringify x ++ match r with [] => "" | _ => "," ++ members r end
                end) fields ++ "}"
  end.

(** *** [JSON.parse] *)

Definition is_ws (c : ascii) : bool :=
  Ascii.eqb c " " || Ascii.eqb c "009" || Ascii.eqb c "010" || Ascii.eqb c "013".

Fixpoint skip_ws (s : string) : string :=
  match s with
  | String c t => if is_ws c then skip_ws t else s
  | EmptyString => s
  end.

Definition digit_val (c : ascii) : option Z :=
  let n := Z.of_N (N_of_ascii c) in
  if (48 <=? n)%Z && (n <=? 57)%Z then Some (n - 48)%Z else None.

Definition hex_val (c : ascii) : option N :=
  let n := N_of_ascii c in
  if (48 <=? n)%N && (n <=? 57)%N then Some (n - 48)%N
  else if (97 <=? n)%N && (n <=? 102)%N then Some (n - 87)%N
  else if (65 <=? n)%N && (n <=? 70)%N then Some (n - 55)%N
  else None.

Definition hex4 (a b c d : ascii) : option N :=
  match hex_val a, hex_val b, hex_val c, hex_val d with
  | Some x, Some y, Some z, Some w => Some (((x * 16 + y) * 16 + z) * 16 + w)%N
  | _, _, _, _ => None
  end.

(** The character a one-letter escape stands for. *)
Definition unescape (c : ascii) : option ascii :=
  if Ascii.eqb c dquote then Some dquote
  else if Ascii.eqb c "\" then Some "\"%char
  else if Ascii.eqb c "/" then Some "/"%char
  else if Ascii.eqb c "b" then Some "008"%char
  else if Ascii.eqb c "f" then Some "012"%char
  else if Ascii.eqb c "n" then Some "010"%char
  else if Ascii.eqb c "r" then Some "013"%char
  else if Ascii.eqb c "t" then Some "009"%char
  else None.

Definition push (c : ascii) (r : option (string * string)) : option (string * string) :=
  match r with
  | Some (str, rest) => Some (String c str, rest)
  | None => None
  end.

(** The characters of a string literal after its opening quote: the
    decoded text and what follows the closing quote. An escape for a
    code unit of 256 or more is outside the alphabet of this model and is
    not accepted. *)
Fixpoint parse_chars (s : string) : option (string * string) :=
  match s with
  | EmptyString => None
  | String c t =>
      if Ascii.eqb c dquote then Some (EmptyString, t)
      else if Ascii.eqb c "\" then
        match t with
        | String e t' =>
            if Ascii.eqb e "u" then
              match t' with
              | String h1 (String h2 (String h3 (String h4 t''))) =>
                  match hex4 h1 h2 h3 h4 with
                  | Some n => if (n <? 256)%N then push (ascii_of_N n) (parse_chars t'') else None
                  | None => None
                  end
              | _ => None
              end
            else
              match unescape e with
              | Some c' => push c' (parse_chars t')
              | None => None
              end
        | EmptyString => None
        end
      else if (N_of_ascii c <? 32)%N then None
      else push c (parse_chars t)
  end.

(** A run of decimal digits: their value continued from [acc], how many
    there were, and the rest. *)
Fixpoint digits (acc : Z) (count : Z) (s : string) : Z * Z * string :=
  match s with
  | String c t =>
      match digit_val c with
      | Some d => digits (acc * 10 + d) (count + 1) t
      | None => (acc, count, s)
      end
  | EmptyString => (acc, count, s)
  end.

(** [int frac? exp?] after the optional minus sign. *)
Definition parse_unsigned (s : string) : option (Z * Z * string) :=
  match s with
  | EmptyString => None
  | String c t =>
      match digit_val c with
      | None => None
      | Some d =>
          let '(int, _, s1) := if (d =? 0)%Z then (0%Z, 1%Z, t) else digits d 1 t in
          let frac :=
            match s1 with
            | String "." s2 =>
                let '(m, n, s3) := digits int 0 s2 in
                if (n =? 0)%Z then None else Some (m, n, s3)
            | _ => Some (int, 0%Z, s1)
            end in
          match frac with
          | None => None
          | Some (m, n, s3) =>
              match s3 with
              | String x s4 =>
                  if Ascii.eqb x "e" || Ascii.eqb x "E" then
                    let '(neg, s5) :=
                      match s4 with
                      | String "-" r => (true, r)
                      | String "+" r => (false, r)
                      | _ => (false, s4)
                      end in
                    let '(ex, k, s6) := digits 0 0 s5 in
                    if (k =? 0)%Z then None
                    else Some (m, ((if neg then - ex else ex) - n)%Z, s6)
                  else Some (m, (- n)%Z, s3)
              | EmptyString => Some (m, (- n)%Z, s3)
              end
          end
      end
  end.

Definition parse_number (s : string) : option (json * string) :=
  match s with
  | String "-" t =>
      match parse_unsigned t with
      | Some (m, e, r) => Some (JNum (- m) e, r)
      | None => None
      end
  | _ =>
      match parse_unsigned s with
      | Some (m, e, r) => Some (JNum m e, r)
      | None => None
      end
  end.

(** A later member of an object replaces an earlier one of the same name,
    in the earlier one's place. *)
Fixpoint set_field (k : string) (v : json) (fields : list (string * json)) : list (string * json) :=
  match fields with
  | [] => [(k, v)]
  | (k', v') :: rest =>
      if String.eqb k k' then (k', v) :: rest else (k', v') :: set_field k v rest
  end.

Fixpoint parse_value (fuel : nat) (s : string) {struct fuel} : option (json * string) :=
  match fuel with
  | O => None
  | S fuel' =>
      match skip_ws s with
      | EmptyString => None
      | String c t as s' =>
          if Ascii.eqb c "{" then
            match skip_ws t with
            | String "}" r => Some (JObj [], r)
            | t' => parse_members fuel' [] t'
            end
          else if Ascii.eqb c "[" then
            match skip_ws t with
            | String "]" r => Some (JArr [], r)
            | t' => parse_elements fuel' [] t'
            end
          else if Ascii.eqb c dquote then
            match parse_chars t with
            | Some (str, r) => Some (JStr str, r)
            | None => None
            end
          else if String.prefix "true" s' then Some (JBool true, drop 4 s')
          else if String.prefix "false" s' then Some (JBool false, drop 5 s')
          else if String.prefix "null" s' then Some (JNull, drop 4 s')
          else parse_number s'
      end
  end
with parse_elements (fuel : nat) (acc : list json) (s : string) {struct fuel}
  : option (json * string) :=
  match fuel with
  | O => None
  | S fuel' =>
      match parse_value fuel' s with
      | None => None
      | Some (v, r) =>
          match skip_ws r with
          | String "," r' => parse_elements fuel' (acc ++ [v])%list r'
          | String "]" r' => Some (JArr (acc ++ [v])%list, r')
          | _ => None
          end
      end
  end
with parse_members (fuel : nat) (acc : list (string * json)) (s : string) {struct fuel}
  : option (json * string) :=
  match fuel with
  | O => None
  | S fuel' =>
      match skip_ws s with
      | String c t =>
          if Ascii.eqb c dquote then
            match parse_chars t with
            | None => None
            | Some (k, r) =>
                match skip_ws r with
                | String ":" r' =>
                    match parse_value fuel' r' with
                    | None => None
                    | Some (v, r'') =>
                        match skip_ws r'' with
                        | String "," r3 => parse_members fuel' (set_field k v acc) r3
                        | String "}" r3 => Some (JObj (set_field k v acc), r3)
                        | _ => None
                        end
                    end
                | _ => None
                end
            end
          else None
      | EmptyString => None
      end
  end.

(** [JSON.parse(text)]: the value, or a [SyntaxError]. Every call of the
    parser consumes a character at the latest one call deeper, so twice
    the length of the text is fuel enough. *)
Definition JSON_parse (text : string) : exn + json :=
  match parse_value (2 * String.length text + 2) text with
  | Some (v, rest) =>
      match skip_ws rest with
      | EmptyString => inr v
      | _ => inl (SyntaxError "Unexpected non-whitespace character after JSON")
      end
  | None => inl (SyntaxError "Unexpected token or end of JSON input")
  end.

End Js.

Import Js.

(** ** The chat-completion interface of the provider SDK *)

Module OpenAI.

(** The options the client is constructed with. *)
Record t : Type := new { apiKey : string; baseURL : option string }.

Inductive ChatCompletionContentPart : Type :=
| text_part (text : string)
| image_url_part (url : string).

Inductive MessageContent : Type :=
| plain (text : string)
| multipart (parts : list ChatCompletionContentPart).

Record ChatCompletionMessageParam : Type :=
  { role : string; content : MessageContent }.

Record ChatCompletionCreateParams : Type :=
  { model : string; messages : list ChatCompletionMessageParam }.

(** What a completion answers, as far as the handler looks into it. *)
Record ChatCompletionMessage : Type := { message_content : option string }.
Record Choice : Type := { message : option ChatCompletionMessage }.
Record ChatCompletion : Type := { choices : list Choice }.

(** How the promise returned by [chat.completions.create] settles. *)
Inductive outcome : Type :=
| fulfilled (completion : ChatCompletion)
| rejected (reason : exn).

(** [response.choices[0]?.message?.content ?? ""]. *)
Definition first_content (response : ChatCompletion) : string :=
  match choices response with
  | [] => ""
  | choice :: _ =>
      match message choice with
      | None => ""
      | Some m =>
          match message_content m with
          | None => ""
          | Some text => text
          end
      end
  end.

End OpenAI.

(** ** Content parts and the collaborators outside this file *)

Inductive ContentPart : Type :=
| text (text : string)
| inlineData (mimeType data : string).

Definition convertPartsToOpenAIContent (parts : list ContentPart)
  : list OpenAI.ChatCompletionContentPart :=
  map (fun part =>
         match part with
         | inlineData mimeType data =>
             OpenAI.image_url_part ("data:" ++ mimeType ++ ";base64," ++ data)
         | text t => OpenAI.text_part t
         end) parts.

(** The functions the handler imports from outside this file: the guard
    [v0_8.Data.Guards.isObject] of the renderer library and the prompt
    builders [createImageParsePrompt] and [createA2UIPrompt] of
    [./prompts]. They are parameters of the development: every statement
    holds whatever they compute. A prompt builder yields the [parts] of
    its prompt, or throws. *)
Class Collaborators : Type := {
  isObject : value -> bool;
  createImageParsePrompt : value -> ContentPart -> exn + list ContentPart;
  createA2UIPrompt : value -> string -> value -> exn + list ContentPart
}.

(** ** Constants *)

Definition nl : string := String "010"%char EmptyString.
Definition lines (l : list string) : string := String.concat nl l.

Definition DEFAULT_OPENAI_MODEL : string := "gpt-4o".
Definition DEFAULT_GEMINI_MODEL : string := "gemini-2.5-flash".
Definition GEMINI_BASE_URL : string :=
  "https://generativelanguage.googleapis.com/v1beta/openai/".

Definition NO_API_KEY_MESSAGE : string :=
  "No API key found. Please set OPENAI_API_KEY in your .env file." ++ nl ++
  "For vLLM or other OpenAI-compatible APIs also set OPENAI_BASE_URL." ++ nl ++
  "Legacy: GEMINI_API_KEY is still accepted for backward compatibility.".

(** The system instruction of the image-description call. *)
Definition IMAGE_SYSTEM_PROMPT : string :=
  lines
    ["You are working as part of an AI system, so no chit-chat and";
     "                        no explaining what you're doing and why. DO NOT start with";
     "                        " ++ dq ++ "Okay" ++ dq ++ ", or " ++ dq ++ "Alright" ++ dq ++ " or any preambles. Just the output,";
     "                        please."].

(** The system instruction of the UI-generation call. *)
Definition A2UI_SYSTEM_PROMPT : string :=
  lines
    ["Please return a valid array";
     "                        necessary to satisfy the user request. If no data is";
     "                        provided create some. If there are any URLs you must";
     "                        make them absolute and begin with a /.";
     "";
     "                        Nothing should ever be loaded from a remote source.";
     "";
     "                        You are working as part of an AI system, so no chit-chat and";
     "                        no explaining what you're doing and why. DO NOT start with";
     "                        " ++ dq ++ "Okay" ++ dq ++ ", or " ++ dq ++ "Alright" ++ dq ++ " or any preambles. Just the output,";
     "                        please.";
     "";
     "                        ULTRA IMPORTANT: *Just* return the A2UI Protocol";
     "                        Message object, do not wrap it in markdown. Just the object";
     "                        please, nothing else!"].

(** The two response envelopes. *)
Definition model_envelope (t : string) : json :=
  JObj [("role", JStr "model"); ("parts", JArr [JObj [("text", JStr t)]])].

Definition error_envelope (detail : string) : json :=
  JObj [("error", JStr ("Invalid message - " ++ detail))].

(** ** The machine: module state, the response object, the provider *)

(** The response object [res]: [statusCode] and the headers are fields set
    before [end] sends the body. *)
Record ServerResponse : Type := {
  statusCode : Z;
  headers : list (string * string);
  sent : option string
}.

Definition fresh_response : ServerResponse :=
  {| statusCode := 200; headers := []; sent := None |}.

Record machine : Type := {
  catalog : value;                      (* let catalog = null *)
  client : option OpenAI.t;             (* let client = null *)
  res : ServerResponse;                 (* the response of the request in hand *)
  forwarded : bool;                     (* next() has been called *)
  issued : list (OpenAI.t * OpenAI.ChatCompletionCreateParams);
                                        (* the calls made so far, oldest first *)
  provider : list OpenAI.outcome        (* how the coming calls will settle *)
}.

Definition with_catalog (v : value) (m : machine) : machine :=
  {| catalog := v; client := client m; res := res m; forwarded := forwarded m;
     issued := issued m; provider := provider m |}.

Definition with_client (c : option OpenAI.t) (m : machine) : machine :=
  {| catalog := catalog m; client := c; res := res m; forwarded := forwarded m;
     issued := issued m; provider := provider m |}.

Definition with_res (r : ServerResponse) (m : machine) : machine :=
  {| catalog := catalog m; client := client m; res := r; forwarded := forwarded m;
     issued := issued m; provider := provider m |}.

Definition with_forwarded (b : bool) (m : machine) : machine :=
  {| catalog := catalog m; client := client m; res := res m; forwarded := b;
     issued := issued m; provider := provider m |}.

Definition with_traffic (calls : list (OpenAI.t * OpenAI.ChatCompletionCreateParams))
    (script : list OpenAI.outcome) (m : machine) : machine :=
  {| catalog := catalog m; client := client m; res := res m; forwarded := forwarded m;
     issued := calls; provider := script |}.

(** A computation ends normally, throws, or stays suspended on a promise
    that never settles. *)
Inductive result (A : Type) : Type :=
| Done (a : A)
| Thrown (e : exn)
| Pending.
Arguments Done {A}.
Arguments Thrown {A}.
Arguments Pending {A}.

Definition M (A : Type) : Type := machine -> result A * machine.

Definition ret {A} (a : A) : M A := fun m => (Done a, m).

Definition bind {A B} (c : M A) (k : A -> M B) : M B :=
  fun m =>
    match c m with
    | (Done a, m') => k a m'
    | (Thrown e, m') => (Thrown e, m')
    | (Pending, m') => (Pending, m')
    end.

Declare Scope js_scope.
Delimit Scope js_scope with js.
Notation "'let*' x ':=' c 'in' k" := (bind c (fun x => k))
  (at level 10, x name, c at level 100, k at level 200) : js_scope.
Notation "c ';;' k" := (bind c (fun _ => k))
  (at level 100, k at level 200, right associativity) : js_scope.
Open Scope js_scope.

Definition throw {A} (e : exn) : M A := fun m => (Thrown e, m).

Definition lift {A} (r : exn + A) : M A :=
  match r with
  | inl e => throw e
  | inr a => ret a
  end.

(** [try { body } catch (err) { handler }]. A suspended body stays
    suspended: there is nothing to catch. *)
Definition try_catch {A} (body : M A) (handler : exn -> M A) : M A :=
  fun m =>
    match body m with
    | (Thrown e, m') => handler e m'
    | other => other
    end.

Definition read_catalog : M value := fun m => (Done (catalog m), m).
Definition write_catalog (v : value) : M unit := fun m => (Done tt, with_catalog v m).

Definition set_statusCode (code : Z) : M unit :=
  fun m => (Done tt, with_res {| statusCode := code; headers := headers (res m);
                                 sent := sent (res m) |} m).

Definition setHeader (k v : string) : M unit :=
  fun m => (Done tt, with_res {| statusCode := statusCode (res m);
                                 headers := (headers (res m) ++ [(k, v)])%list;
                                 sent := sent (res m) |} m).

Definition end_ (body : string) : M unit :=
  fun m => (Done tt, with_res {| statusCode := statusCode (res m);
                                 headers := headers (res m);
                                 sent := Some body |} m).

Definition next : M unit := fun m => (Done tt, with_forwarded true m).

(** [await client.chat.completions.create(params)]: the call goes out
    through the module-level client and the handler resumes when the
    provider settles it. *)
Definition create (params : OpenAI.ChatCompletionCreateParams) : M OpenAI.ChatCompletion :=
  fun m =>
    match client m with
    | None => (Thrown (TypeError "Cannot read properties of null (reading 'chat')"), m)
    | Some c =>
        let calls := (issued m ++ [(c, params)])%list in
        match provider m with
        | [] => (Pending, with_traffic calls [] m)
        | OpenAI.fulfilled completion :: rest => (Done completion, with_traffic calls rest m)
        | OpenAI.rejected reason :: rest => (Thrown reason, with_traffic calls rest m)
        end
    end.

(** ** The plugin *)

(** [process.env]. *)
Abbreviation ProcessEnv := (gmap string string).

Record Plugin : Type := { name : string; route : string }.

(** [plugin()]: refuses to build without a credential; otherwise the
    plugin whose [configureServer] mounts the middleware on [/a2ui]. *)
Definition plugin (env : ProcessEnv) : exn + Plugin :=
  let apiKey := or_else (env !! "OPENAI_API_KEY") (env !! "GEMINI_API_KEY") in
  if negb (truthy_str apiKey) then inl (Error NO_API_KEY_MESSAGE)
  else inr {| name := "custom-ai-handler"; route := "/a2ui" |}.

(** The request as the middleware sees it: its method and the chunks its
    body arrives in. *)
Record IncomingMessage : Type := { method : string; chunks : list string }.

(** [if (!client) { ... client = new OpenAI({ apiKey: key, baseURL }) }]. *)
Definition init_client (env : ProcessEnv) : M unit :=
  fun m =>
    match client m with
    | Some _ => (Done tt, m)
    | None =>
        let key :=
          default "" (or_else (or_else (env !! "OPENAI_API_KEY") (env !! "GEMINI_API_KEY"))
                              (Some "")) in
        let baseURL :=
          or_else (env !! "OPENAI_BASE_URL")
                  (if truthy_str (env !! "GEMINI_API_KEY")
                      && negb (truthy_str (env !! "OPENAI_API_KEY"))
                   then Some GEMINI_BASE_URL
                   else None) in
        (Done tt, with_client (Some (OpenAI.new key baseURL)) m)
    end.

(** [const model = process.env.AI_MODEL || (... ? ... : ...)]. *)
Definition select_model (env : ProcessEnv) : string :=
  default ""
    (or_else (env !! "AI_MODEL")
             (Some (if truthy_str (env !! "GEMINI_API_KEY")
                       && negb (truthy_str (env !! "OPENAI_API_KEY"))
                    then DEFAULT_GEMINI_MODEL
                    else DEFAULT_OPENAI_MODEL))).

(** The text the [data] listener has gathered when the body ends: the
    chunks, appended in the order they came. *)
Definition contents (req : IncomingMessage) : string :=
  fold_left (fun gathered chunk => gathered ++ chunk) (chunks req) "".

Section Handler.

Context {collaborators : Collaborators}.

(** The image branch of the generation path, entered when
    [request.imageData] is a string that starts with [data:]: it yields
    the description of the image. *)
Definition describe_image (model imageData : string) : M string :=
  let mimeType := exec_data_mime imageData in
  if negb (truthy_str mimeType) then throw (Error "Invalid inline data")
  else
    let mimeType := default "" mimeType in
    let data := substring imageData (String.length ("data:" ++ mimeType ++ ";base64,")) in
    let contentPart := inlineData mimeType data in
    let* catalog := read_catalog in
    let* imagePromptData := lift (createImageParsePrompt catalog contentPart) in
    let* imageResponse :=
      create {| OpenAI.model := model;
                OpenAI.messages :=
                  [ {| OpenAI.role := "system";
                       OpenAI.content := OpenAI.plain IMAGE_SYSTEM_PROMPT |};
                    {| OpenAI.role := "user";
                       OpenAI.content :=
                         OpenAI.multipart (convertPartsToOpenAIContent imagePromptData) |} ] |} in
    ret (OpenAI.first_content imageResponse).

(** [imageDescription] as the generation path computes it: the empty
    text unless [request.imageData] is truthy and starts with [data:].
    Only a string has a [startsWith] to call. *)
Definition describe (model : string) (request : value) : M string :=
  let* imageData := lift (get_prop request "imageData") in
  match imageData with
  | Some (JStr s) =>
      if truthy imageData && String.prefix "data:" s then describe_image model s
      else ret ""
  | _ =>
      if truthy imageData
      then throw (TypeError "request.imageData.startsWith is not a function")
      else ret ""
  end.

(** The generation path once [request] has passed the object guard. *)
Definition generate (model : string) (request : value) : M unit :=
  let* imageDescription := describe model request in
  let* catalog := read_catalog in
  let* instructions := lift (get_prop request "instructions") in
  let* a2uiPromptData := lift (createA2UIPrompt catalog imageDescription instructions) in
  let* a2uiResponse :=
    create {| OpenAI.model := model;
              OpenAI.messages :=
                [ {| OpenAI.role := "system";
                     OpenAI.content := OpenAI.plain A2UI_SYSTEM_PROMPT |};
                  {| OpenAI.role := "user";
                     OpenAI.content :=
                       OpenAI.multipart (convertPartsToOpenAIContent a2uiPromptData) |} ] |} in
  let responseText := OpenAI.first_content a2uiResponse in
  set_statusCode 200 ;;
  setHeader "Content-Type" "application/json" ;;
  end_ (JSON_stringify (model_envelope responseText)).

(** The body of the [try] block of the [end] listener. Reading a property
    changes nothing, so a property the source reads several times is
    bound once. *)
Definition dispatch (model contents : string) : M unit :=
  let* parsed := lift (JSON_parse contents) in
  let payload : value := Some parsed in
  let* clientUiCapabilities := lift (get_prop payload "clientUiCapabilities") in
  let* userAction := lift (get_prop payload "userAction") in
  if truthy clientUiCapabilities || truthy userAction then
    if truthy clientUiCapabilities then
      let* announced := lift (has_prop "dynamicCatalog" clientUiCapabilities) in
      if announced then
        let* dynamicCatalog := lift (get_prop clientUiCapabilities "dynamicCatalog") in
        write_catalog dynamicCatalog ;;
        set_statusCode 200 ;;
        setHeader "Content-Type" "application/json" ;;
        end_ (JSON_stringify (model_envelope "Dynamic Catalog Received"))
      else ret tt
    else if truthy userAction then
      (* TODO: Handle user actions. *)
      ret tt
    else ret tt
  else
    (* Other payload - assume this is a user request. *)
    let* request := lift (get_prop payload "request") in
    let* catalog := read_catalog in
    if negb (truthy request) || negb (truthy catalog) then
      set_statusCode 400 ;;
      setHeader "Content-Type" "application/json" ;;
      end_ (JSON_stringify (error_envelope "No payload or catalog"))
    else if isObject request then generate model request
    else throw (Error "Expected request to be an object").

(** The [end] listener: the [try] block and its [catch]. *)
Definition on_end (model contents : string) : M unit :=
  try_catch (dispatch model contents)
    (fun err =>
       set_statusCode 400 ;;
       setHeader "Content-Type" "application/json" ;;
       end_ (JSON_stringify (error_envelope (toString err)))).

(** The middleware mounted on [/a2ui]. The [data] listener appends every
    chunk to [contents]; the [end] listener runs on the whole of it. *)
Definition middleware (env : ProcessEnv) (req : IncomingMessage) : M unit :=
  init_client env ;;
  let model := select_model env in
  if String.eqb (method req) "POST" then on_end model (contents req)
  else next.

End Handler.

(** ** The process *)

(** One request with what surrounds it: the environment variables at
    that moment and the way the provider will settle the calls made while
    the request is handled. *)
Record exchange : Type := {
  env : ProcessEnv;
  req : IncomingMessage;
  outcomes : list OpenAI.outcome
}.

(** The module as loaded: no catalog, no client. *)
Definition boot : machine :=
  {| catalog := Some JNull; client := None; res := fresh_response; forwarded := false;
     issued := []; provider := [] |}.

(** A request arrives: it has its own response object and its own
    traffic with the provider. *)
Definition arrive (x : exchange) (m : machine) : machine :=
  with_traffic [] (outcomes x) (with_forwarded false (with_res fresh_response m)).

Definition serve `{Collaborators} (m : machine) (x : exchange) : result unit * machine :=
  middleware (env x) (req x) (arrive x m).

Definition serve_all `{Collaborators} (m : machine) (xs : list exchange) : machine :=
  fold_left (fun m x => snd (serve m x)) xs m.

Definition post (body : string) : IncomingMessage :=
  {| method := "POST"; chunks := [body] |}.

(** Collaborators to run the handler on examples: the guard accepts the
    JSON objects, and each prompt is made of its inputs. *)
Definition sample_collaborators : Collaborators :=
  {| isObject v := match v with Some (JObj _) => true | _ => false end;
     createImageParsePrompt _ part := inr [text "Describe this image"; part];
     createA2UIPrompt _ imageDescription instructions :=
       inr [text imageDescription;
            text (match instructions with Some (JStr s) => s | _ => "" end)] |}.

(** ** Vocabulary of the statements *)

(** An environment variable is set when it holds a text that is not
    empty: the [||] and [!] of the source read an empty text as they read
    an absent variable. *)
Definition is_set (env : ProcessEnv) (variable : string) : bool :=
  truthy_str (env !! variable).

(** The two fixed bodies, as they go over the wire. *)
Definition ACK_BODY : string :=
  sq "{'role':'model','parts':[{'text':'Dynamic Catalog Received'}]}".

Definition NO_CATALOG_BODY : string :=
  sq "{'error':'Invalid message - No payload or catalog'}".

Definition EMPTY_TEXT_BODY : string := sq "{'role':'model','parts':[{'text':''}]}".

Definition JSON_HEADERS : list (string * string) :=
  [("Content-Type", "application/json")].

(** The exchange carries a catalog announcement of [v]: a POST whose
    payload has an object under [clientUiCapabilities] with [v] under its
    [dynamicCatalog] key. *)
Definition announces (x : exchange) (v : json) : Prop :=
  method (req x) = "POST" /\
  exists payload fields,
    JSON_parse (contents (req x)) = inr payload /\
    get_prop (Some payload) "clientUiCapabilities" = inr (Some (JObj fields)) /\
    assoc "dynamicCatalog" fields = Some v.

(** The exchange carries a generation request: a POST whose payload has
    neither a truthy [clientUiCapabilities] nor a truthy [userAction], and
    whose [request] field reads as [request]. *)
Definition generation_request (x : exchange) (request : value) : Prop :=
  method (req x) = "POST" /\
  exists payload clientUiCapabilities userAction,
    JSON_parse (contents (req x)) = inr payload /\
    get_prop (Some payload) "clientUiCapabilities" = inr clientUiCapabilities /\
    truthy clientUiCapabilities = false /\
    get_prop (Some payload) "userAction" = inr userAction /\
    truthy userAction = false /\
    get_prop (Some payload) "request" = inr request.

(** The machine on which the [end] listener starts: the request has
    arrived and the client is there. *)
Definition ready (x : exchange) (m : machine) : machine :=
  snd (init_client (env x) (arrive x m)).

(** The provider answered [response] with no text: no choice, no message
    or no content. *)
Definition returns_nothing (response : OpenAI.ChatCompletion) : Prop :=
  match OpenAI.choices response with
  | [] => True
  | choice :: _ =>
      match OpenAI.message choice with
      | None => True
      | Some m => OpenAI.message_content m = None
      end
  end.

(** *** The calls of the generation path *)

(** The user message of a call carries the parts of a prompt. *)
Definition user_message (parts : list ContentPart) : OpenAI.ChatCompletionMessageParam :=
  {| OpenAI.role := "user";
     OpenAI.content := OpenAI.multipart (convertPartsToOpenAIContent parts) |}.

Definition system_message (instruction : string) : OpenAI.ChatCompletionMessageParam :=
  {| OpenAI.role := "system"; OpenAI.content := OpenAI.plain instruction |}.

(** The two calls of the generation path. *)
Definition image_call (model : string) (parts : list ContentPart) : OpenAI.ChatCompletionCreateParams :=
  {| OpenAI.model := model;
     OpenAI.messages := [system_message IMAGE_SYSTEM_PROMPT; user_message parts] |}.

Definition a2ui_call (model : string) (parts : list ContentPart) : OpenAI.ChatCompletionCreateParams :=
  {| OpenAI.model := model;
     OpenAI.messages := [system_message A2UI_SYSTEM_PROMPT; user_message parts] |}.

(** [imageData] is a string that starts with [data:], which is when the
    image branch is entered. *)
Definition is_data_uri (imageData : value) : bool :=
  match imageData with
  | Some (JStr s) => String.prefix "data:" s
  | _ => false
  end.

(** The content part cut out of a data URI. *)
Definition inline_part (s : string) : ContentPart :=
  let mimeType := default "" (exec_data_mime s) in
  inlineData mimeType (substring s (String.length ("data:" ++ mimeType ++ ";base64,"))).

(** *** Runs of the handler *)

(** The machine once a response of [code] and [body] has been sent. *)
Definition answer (code : Z) (body : string) (m : machine) : machine :=
  with_res {| statusCode := code;
              headers := (headers (res m) ++ JSON_HEADERS)%list;
              sent := Some body |} m.

(** The machine after a call went out and the provider is left with
    [rest]. *)
Definition called (c : OpenAI.t) (params : OpenAI.ChatCompletionCreateParams)
    (rest : list OpenAI.outcome) (m : machine) : machine :=
  with_traffic (issued m ++ [(c, params)])%list rest m.

(** A computation that did not end normally hands its fate on. *)
Definition passes {A B : Type} (r : result A) : result B :=
  match r with
  | Thrown e => Thrown e
  | _ => Pending
  end.

(** How a call settles, read off the provider. *)
Inductive settles (c : OpenAI.t) (params : OpenAI.ChatCompletionCreateParams) (m : machine)
  : result OpenAI.ChatCompletion -> machine -> Prop :=
| settles_never :
    provider m = [] ->
    settles c params m Pending (called c params [] m)
| settles_fulfilled response rest :
    provider m = OpenAI.fulfilled response :: rest ->
    settles c params m (Done response) (called c params rest m)
| settles_rejected reason rest :
    provider m = OpenAI.rejected reason :: rest ->
    settles c params m (Thrown reason) (called c params rest m).

(** The runs of [describe], case by case. *)
Inductive describes `{Collaborators} (model : string) (request : value) (c : OpenAI.t)
    (m : machine) : result string -> machine -> Prop :=
| describes_unreadable e :
    get_prop request "imageData" = inl e ->
    describes model request c m (Thrown e) m
| describes_nothing imageData :
    get_prop request "imageData" = inr imageData ->
    is_data_uri imageData = false ->
    truthy imageData = false \/ (exists s, imageData = Some (JStr s)) ->
    describes model request c m (Done "") m
| describes_not_a_string imageData :
    get_prop request "imageData" = inr imageData ->
    truthy imageData = true ->
    (forall s, imageData <> Some (JStr s)) ->
    describes model request c m
      (Thrown (TypeError "request.imageData.startsWith is not a function")) m
| describes_invalid s :
    get_prop request "imageData" = inr (Some (JStr s)) ->
    String.prefix "data:" s = true ->
    truthy_str (exec_data_mime s) = false ->
    describes model request c m (Thrown (Error "Invalid inline data")) m
| describes_no_prompt s e :
    get_prop request "imageData" = inr (Some (JStr s)) ->
    String.prefix "data:" s = true ->
    truthy_str (exec_data_mime s) = true ->
    createImageParsePrompt (catalog m) (inline_part s) = inl e ->
    describes model request c m (Thrown e) m
| describes_called s parts r m' :
    get_prop request "imageData" = inr (Some (JStr s)) ->
    String.prefix "data:" s = true ->
    truthy_str (exec_data_mime s) = true ->
    createImageParsePrompt (catalog m) (inline_part s) = inr parts ->
    settles c (image_call model parts) m r m' ->
    describes model request c m
      (match r with
       | Done response => Done (OpenAI.first_content response)
       | other => passes other
       end) m'.

(** The runs of [generate], case by case. *)
Inductive generates `{Collaborators} (model : string) (request : value) (c : OpenAI.t)
    (m : machine) : result unit -> machine -> Prop :=
| generates_undescribed r m' :
    describes model request c m r m' ->
    (forall d, r <> Done d) ->
    generates model request c m (passes r) m'
| generates_unreadable d m' e :
    describes model request c m (Done d) m' ->
    get_prop request "instructions" = inl e ->
    generates model request c m (Thrown e) m'
| generates_no_prompt d m' instructions e :
    describes model request c m (Done d) m' ->
    get_prop request "instructions" = inr instructions ->
    createA2UIPrompt (catalog m') d instructions = inl e ->
    generates model request c m (Thrown e) m'
| generates_called d m' instructions parts r m'' :
    describes model request c m (Done d) m' ->
    get_prop request "instructions" = inr instructions ->
    createA2UIPrompt (catalog m') d instructions = inr parts ->
    settles c (a2ui_call model parts) m' r m'' ->
    generates model request c m
      (match r with
       | Done _ => Done tt
       | other => passes other
       end)
      (match r with
       | Done response =>
           answer 200 (JSON_stringify (model_envelope (OpenAI.first_content response))) m''
       | _ => m''
       end).

(** What the [catch] makes of the outcome of the [try] block. *)
Definition caught (r : result unit * machine) : result unit * machine :=
  match r with
  | (Thrown e, m') => (Done tt, answer 400 (JSON_stringify (error_envelope (toString e))) m')
  | other => other
  end.

(** [c] occurs in [s]. *)
Fixpoint occurs (c : ascii) (s : string) : bool :=
  match s with
  | EmptyString => false
  | String c' t => Ascii.eqb c c' || occurs c t
  end.

(** The resolution rules of the provider settings, in the words of the
    specification, to be compared with [select_model] and [init_client]. *)
Definition model_by_priority (env : ProcessEnv) : string :=
  if is_set env "AI_MODEL" then default "" (env !! "AI_MODEL")
  else if is_set env "GEMINI_API_KEY" && negb (is_set env "OPENAI_API_KEY")
       then "gemini-2.5-flash"
       else "gpt-4o".

Definition credential (env : ProcessEnv) : string :=
  if is_set env "OPENAI_API_KEY" then default "" (env !! "OPENAI_API_KEY")
  else if is_set env "GEMINI_API_KEY" then default "" (env !! "GEMINI_API_KEY")
  else "".

Definition endpoint (env : ProcessEnv) : option string :=
  if is_set env "OPENAI_BASE_URL" then env !! "OPENAI_BASE_URL"
  else if is_set env "GEMINI_API_KEY" && negb (is_set env "OPENAI_API_KEY")
       then Some "https://generativelanguage.googleapis.com/v1beta/openai/"
       else None.

Definition INVALID_INLINE_DATA_BODY : string :=
  sq "{'error':'Invalid message - Error: Invalid inline data'}".

(** ** Sample exchanges *)

Definition sample_env : ProcessEnv := {[ "OPENAI_API_KEY" := "sk-test" ]}.

Definition sample_exchange (body : string) (script : list OpenAI.outcome) : exchange :=
  {| env := sample_env; req := post body; outcomes := script |}.

(** The provider answers with one choice whose message carries [t]. *)
Definition replies (t : string) : OpenAI.outcome :=
  OpenAI.fulfilled
    {| OpenAI.choices :=
         [ {| OpenAI.message := Some {| OpenAI.message_content := Some t |} |} ] |}.

Definition sample_catalog : json := JObj [("components", JArr [])].

Definition announcement : exchange :=
  sample_exchange (sq "{'clientUiCapabilities':{'dynamicCatalog':{'components':[]}}}") [].


(** The machine once the sample catalog has been announced. *)
Definition announced : machine := snd (@serve sample_collaborators boot announcement).

Definition hello_request : exchange :=
  sample_exchange (sq "{'request':{'instructions':'hello'}}") [replies "UI"].

Definition image_request (imageData : string) : exchange :=
  sample_exchange
    (sq "{'request':{'instructions':'hello','imageData':'" ++ imageData ++ sq "'}}")
    [replies "a cat"; replies "UI"].

Definition UI_BODY : string := sq "{'role':'model','parts':[{'text':'UI'}]}".

Definition empty_capabilities : exchange :=
  sample_exchange
    (sq "{'clientUiCapabilities':{},'userAction':{'name':'tap'},'request':{'instructions':'hello'}}")
    [replies "UI"].

Definition primitive_capabilities : exchange :=
  sample_exchange (sq "{'clientUiCapabilities':true}") [].



(** ** Vocabulary of the further properties *)

(** No character of [s] is a line terminator. *)
Fixpoint single_line (s : string) : bool :=
  match s with
  | EmptyString => true
  | String c t => negb (is_line_terminator c) && single_line t
  end.

(** The two envelopes as they go over the wire. *)
Definition MODEL_BODY (t : string) : string :=
  sq "{'role':'model','parts':[{'text':'" ++ quote_chars t ++ sq "'}]}".

Definition ERROR_BODY (message : string) : string :=
  sq "{'error':'" ++ quote_chars message ++ sq "'}".

(** The response object once [body] went out with [code], the content
    type having been set once. *)
Definition response (code : Z) (body : string) : ServerResponse :=
  {| statusCode := code; headers := JSON_HEADERS; sent := Some body |}.

(** The response object is untouched, or carries one of the two
    envelopes. *)
Inductive enveloped : ServerResponse -> Prop :=
| enveloped_nothing : enveloped fresh_response
| enveloped_model t : enveloped (response 200 (JSON_stringify (model_envelope t)))
| enveloped_error detail :
    enveloped (response 400 (JSON_stringify (error_envelope detail))).

(** The calls one request can make through [c] with [model]: none, one
    of the two, or the image call and then the generation call. *)
Inductive call_pattern (c : OpenAI.t) (model : string)
  : list (OpenAI.t * OpenAI.ChatCompletionCreateParams) -> Prop :=
| pattern_none : call_pattern c model []
| pattern_image parts : call_pattern c model [(c, image_call model parts)]
| pattern_a2ui parts : call_pattern c model [(c, a2ui_call model parts)]
| pattern_both parts1 parts2 :
    call_pattern c model [(c, image_call model parts1); (c, a2ui_call model parts2)].


Definition NOT_A_STRING_BODY : string :=
  sq "{'error':'Invalid message - TypeError: request.imageData.startsWith is not a function'}".

(** ** Further sample exchanges *)

Definition user_action : exchange :=
  sample_exchange (sq "{'userAction':{'name':'tap'}}") [replies "UI"].

Definition get_request : exchange :=
  {| env := sample_env; req := {| method := "GET"; chunks := [] |}; outcomes := [] |}.

Definition numeric_image_request : exchange :=
  sample_exchange (sq "{'request':{'instructions':'hello','imageData':5}}") [replies "UI"].

(** ** Proof tools *)

Lemma empty_text_body_eq : JSON_stringify (model_envelope "") = EMPTY_TEXT_BODY.
Proof. reflexivity. Qed.

#[global] Arguments JSON_stringify : simpl never.

(** Unfolds the generation path down to the matches on its inputs. *)
Ltac unfold_handler :=
  unfold generate, describe, describe_image, create, bind, lift, ret, throw, read_catalog,
    set_statusCode, setHeader, end_ in *.

(** [e] has no match inside it. *)
Ltac innermost e :=
  lazymatch e with
  | context [match _ with _ => _ end] => fail
  | _ => idtac
  end.

(** Case analysis on every scrutinee of the goal, the innermost first. *)
Ltac split_cases :=
  repeat (cbn beta iota;
          match goal with
          | |- context [match ?e with _ => _ end] => innermost e; destruct e eqn:?
          end).

(** ** The handler, branch by branch *)

Section Facts.
Context {collaborators : Collaborators}.

Lemma init_client_spec env m :
  exists c, init_client env m = (Done tt, with_client (Some c) m) /\
            (forall c0, client m = Some c0 -> c = c0).
Proof.
  unfold init_client. destruct (client m) as [c|] eqn:E.
  - exists c. split; [|congruence]. destruct m; cbn in *. subst. reflexivity.
  - eexists. split; [reflexivity|]. intros; discriminate.
Qed.

Lemma ready_catalog x m : catalog (ready x m) = catalog m.
Proof.
  unfold ready. destruct (init_client_spec (env x) (arrive x m)) as (c & -> & _). reflexivity.
Qed.

Lemma ready_fields x m :
  res (ready x m) = fresh_response /\ forwarded (ready x m) = false /\
  issued (ready x m) = [] /\ provider (ready x m) = outcomes x.
Proof.
  unfold ready. destruct (init_client_spec (env x) (arrive x m)) as (c & -> & _).
  cbn. auto.
Qed.

Lemma ready_client x m : exists c, client (ready x m) = Some c.
Proof.
  unfold ready. destruct (init_client_spec (env x) (arrive x m)) as (c & -> & _).
  exists c. reflexivity.
Qed.

Lemma serve_post m x :
  method (req x) = "POST" ->
  serve m x = on_end (select_model (env x)) (contents (req x)) (ready x m).
Proof.
  intros H. unfold serve, middleware, ready, bind.
  destruct (init_client_spec (env x) (arrive x m)) as (c & -> & _). cbn.
  rewrite H. reflexivity.
Qed.

Lemma serve_other m x :
  method (req x) <> "POST" ->
  serve m x = (Done tt, with_forwarded true (ready x m)).
Proof.
  intros H. unfold serve, middleware, ready, bind.
  destruct (init_client_spec (env x) (arrive x m)) as (c & -> & _). cbn.
  destruct (String.eqb_spec (method (req x)) "POST"); [contradiction|]. reflexivity.
Qed.

Lemma get_prop_total v k k' a :
  get_prop v k = inr a -> exists b, get_prop v k' = inr b.
Proof.
  destruct v as [[]|]; cbn; intros H; try discriminate; eauto.
Qed.

Lemma on_end_announcement model text m payload fields v :
  JSON_parse text = inr payload ->
  get_prop (Some payload) "clientUiCapabilities" = inr (Some (JObj fields)) ->
  assoc "dynamicCatalog" fields = Some v ->
  on_end model text m = (Done tt, answer 200 ACK_BODY (with_catalog (Some v) m)).
Proof.
  intros Hp Hc Hv.
  destruct (get_prop_total _ _ "userAction" _ Hc) as [ua Hua].
  unfold on_end, try_catch, dispatch, bind.
  rewrite Hp. cbn [lift ret]. rewrite Hc, Hua. cbn. rewrite Hv. reflexivity.
Qed.

Lemma on_end_silent model text m payload caps :
  JSON_parse text = inr payload ->
  get_prop (Some payload) "clientUiCapabilities" = inr (Some caps) ->
  (exists fields, caps = JObj fields /\ assoc "dynamicCatalog" fields = None) \/
  (exists items, caps = JArr items) ->
  on_end model text m = (Done tt, m).
Proof.
  intros Hp Hc Hshape.
  destruct (get_prop_total _ _ "userAction" _ Hc) as [ua Hua].
  unfold on_end, try_catch, dispatch, bind.
  rewrite Hp. cbn [lift ret]. rewrite Hc, Hua.
  destruct Hshape as [(fields & -> & Hv) | (items & ->)]; cbn.
  - rewrite Hv. reflexivity.
  - reflexivity.
Qed.

(** A user action is accepted and left without any answer. *)
Lemma on_end_user_action model text m payload caps ua :
  JSON_parse text = inr payload ->
  get_prop (Some payload) "clientUiCapabilities" = inr caps ->
  truthy caps = false ->
  get_prop (Some payload) "userAction" = inr ua ->
  truthy ua = true ->
  on_end model text m = (Done tt, m).
Proof.
  intros Hp Hc Hf Hua Ht.
  unfold on_end, try_catch, dispatch, bind.
  rewrite Hp. cbn [lift ret]. rewrite Hc, Hua. cbn [lift ret]. rewrite Hf, Ht. reflexivity.
Qed.

Lemma on_end_refused model text m payload caps ua request :
  JSON_parse text = inr payload ->
  get_prop (Some payload) "clientUiCapabilities" = inr caps ->
  truthy caps = false ->
  get_prop (Some payload) "userAction" = inr ua ->
  truthy ua = false ->
  get_prop (Some payload) "request" = inr request ->
  truthy request = false \/ truthy (catalog m) = false ->
  on_end model text m = (Done tt, answer 400 NO_CATALOG_BODY m).
Proof.
  intros Hp Hc Hf Hua Hf' Hr Hor.
  unfold on_end, try_catch, dispatch, bind.
  rewrite Hp. cbn [lift ret]. rewrite Hc, Hua. cbn [lift ret]. rewrite Hf, Hf'. cbn [orb].
  rewrite Hr. cbn [lift ret read_catalog].
  replace (negb (truthy request) || negb (truthy (catalog m))) with true.
  - reflexivity.
  - destruct Hor as [-> | ->]; cbn; [reflexivity | symmetry; apply orb_true_r].
Qed.



End Facts.

Section Generation.
Context {collaborators : Collaborators}.

Lemma bind_unfold {A B} (c : M A) (k : A -> M B) m :
  bind c k m = match c m with
               | (Done a, m') => k a m'
               | (Thrown e, m') => (Thrown e, m')
               | (Pending, m') => (Pending, m')
               end.
Proof. reflexivity. Qed.

Lemma guard_eq s : truthy (Some (JStr s)) && String.prefix "data:" s = String.prefix "data:" s.
Proof. destruct s; reflexivity. Qed.

Lemma create_settles params m c :
  client m = Some c ->
  settles c params m (fst (create params m)) (snd (create params m)).
Proof.
  intros Hc. unfold create. rewrite Hc.
  destruct (provider m) as [|[response|reason] rest] eqn:Hp; cbn [fst snd].
  - apply settles_never, Hp.
  - eapply settles_fulfilled, Hp.
  - eapply settles_rejected, Hp.
Qed.

Lemma settles_client c params m r m' : settles c params m r m' -> client m' = client m.
Proof. destruct 1; reflexivity. Qed.

Lemma describe_describes model request m c :
  client m = Some c ->
  describes model request c m (fst (describe model request m)) (snd (describe model request m)).
Proof.
  intros Hc. unfold describe, bind.
  destruct (get_prop request "imageData") as [e|imageData] eqn:Hi; cbn [lift ret throw fst snd].
  { now apply describes_unreadable. }
  assert (Hother : (forall s, imageData <> Some (JStr s)) ->
    describes model request c m
      (fst ((if truthy imageData
             then throw (TypeError "request.imageData.startsWith is not a function")
             else ret "") m))
      (snd ((if truthy imageData
             then throw (TypeError "request.imageData.startsWith is not a function")
             else ret "") m))).
  { intros Hns. destruct (truthy imageData) eqn:Ht; cbn [throw ret fst snd].
    - eapply describes_not_a_string; eauto.
    - eapply describes_nothing; eauto. destruct imageData as [[]|]; try reflexivity.
      destruct (Hns s eq_refl). }
  destruct imageData as [[| b | mant ex | s | items | fields]|]; try (apply Hother; congruence).
  clear Hother. rewrite guard_eq.
  destruct (String.prefix "data:" s) eqn:Hpre; cbn [ret fst snd].
  2: { eapply describes_nothing; eauto. }
  unfold describe_image.
  destruct (truthy_str (exec_data_mime s)) eqn:Hm; cbn [negb throw fst snd].
  2: { exact (describes_invalid model request c m s Hi Hpre Hm). }
  unfold bind. cbn [read_catalog]. fold (inline_part s).
  destruct (createImageParsePrompt (catalog m) (inline_part s)) as [e|parts] eqn:Hparts;
    cbn [lift ret throw fst snd].
  { eapply describes_no_prompt; eauto. }
  pose proof (create_settles (image_call model parts) m c Hc) as Hs.
  change (create _ m) with (create (image_call model parts) m).
  destruct (create (image_call model parts) m) as [[response|e|] m'] eqn:Hcr; cbn [fst snd] in *.
  - exact (describes_called model request c m s parts (Done response) m' Hi Hpre Hm Hparts Hs).
  - exact (describes_called model request c m s parts (Thrown e) m' Hi Hpre Hm Hparts Hs).
  - exact (describes_called model request c m s parts Pending m' Hi Hpre Hm Hparts Hs).
Qed.

Lemma describes_client model request c m r m' :
  describes model request c m r m' -> client m' = client m.
Proof. destruct 1; try reflexivity. eapply settles_client; eassumption. Qed.

Lemma generate_generates model request m c :
  client m = Some c ->
  generates model request c m (fst (generate model request m)) (snd (generate model request m)).
Proof.
  intros Hc.
  pose proof (describe_describes model request m c Hc) as Hd.
  assert (E : generate model request m =
              bind (describe model request)
                (fun imageDescription =>
                   let* catalog := read_catalog in
                   let* instructions := lift (get_prop request "instructions") in
                   let* a2uiPromptData :=
                     lift (createA2UIPrompt catalog imageDescription instructions) in
                   let* a2uiResponse := create (a2ui_call model a2uiPromptData) in
                   set_statusCode 200 ;;
                   setHeader "Content-Type" "application/json" ;;
                   end_ (JSON_stringify (model_envelope (OpenAI.first_content a2uiResponse)))) m)
    by reflexivity.
  rewrite E. clear E. rewrite bind_unfold.
  destruct (describe model request m) as [[d|e|] m'] eqn:Hdesc; cbn [fst snd] in *.
  2: { exact (generates_undescribed model request c m (Thrown e) m' Hd ltac:(discriminate)). }
  2: { exact (generates_undescribed model request c m Pending m' Hd ltac:(discriminate)). }
  assert (Hc' : client m' = Some c) by (rewrite (describes_client _ _ _ _ _ _ Hd); exact Hc).
  unfold bind. cbn [read_catalog].
  destruct (get_prop request "instructions") as [e|instructions] eqn:Hins;
    cbn [lift ret throw fst snd].
  { eapply generates_unreadable; eauto. }
  destruct (createA2UIPrompt (catalog m') d instructions) as [e|parts] eqn:Hparts;
    cbn [lift ret throw fst snd].
  { eapply generates_no_prompt; eauto. }
  pose proof (create_settles (a2ui_call model parts) m' c Hc') as Hs.
  destruct (create (a2ui_call model parts) m') as [[response|e|] m''] eqn:Hcr; cbn [fst snd] in *.
  - exact (generates_called model request c m d m' instructions parts (Done response) m''
             Hd Hins Hparts Hs).
  - exact (generates_called model request c m d m' instructions parts (Thrown e) m''
             Hd Hins Hparts Hs).
  - exact (generates_called model request c m d m' instructions parts Pending m''
             Hd Hins Hparts Hs).
Qed.

Lemma on_end_caught model text m : on_end model text m = caught (dispatch model text m).
Proof.
  unfold on_end, try_catch, caught. destruct (dispatch model text m) as [[| e |] m']; reflexivity.
Qed.

Lemma dispatch_generation model text m payload caps ua request :
  JSON_parse text = inr payload ->
  get_prop (Some payload) "clientUiCapabilities" = inr caps ->
  truthy caps = false ->
  get_prop (Some payload) "userAction" = inr ua ->
  truthy ua = false ->
  get_prop (Some payload) "request" = inr request ->
  truthy request = true ->
  truthy (catalog m) = true ->
  dispatch model text m =
    if isObject request then generate model request m
    else (Thrown (Error "Expected request to be an object"), m).
Proof.
  intros Hp Hc Hf Hua Hf' Hr Tr Tc.
  unfold dispatch, bind.
  rewrite Hp. cbn [lift ret]. rewrite Hc, Hua. cbn [lift ret]. rewrite Hf, Hf'. cbn [orb].
  rewrite Hr. cbn [lift ret read_catalog]. rewrite Tr, Tc. cbn [negb orb].
  destruct (isObject request); reflexivity.
Qed.
End Generation.

(** ** All the paths through the handler *)

Section Paths.
Context {collaborators : Collaborators}.

Lemma generate_client model request m :
  client (snd (generate model request m)) = client m.
Proof. unfold_handler. split_cases; cbn; congruence. Qed.


(** Whatever the [try] block does, it either is the generation path or
    leaves the provider alone. *)
Lemma dispatch_paths model text m :
  (exists request, dispatch model text m = generate model request m) \/
  (issued (snd (dispatch model text m)) = issued m /\
   provider (snd (dispatch model text m)) = provider m /\
   (fst (dispatch model text m) = Done tt \/ exists e, dispatch model text m = (Thrown e, m))).
Proof.
  unfold dispatch, bind.
  destruct (JSON_parse text) as [e|payload] eqn:Hp; [right; cbn; eauto 6|].
  cbn [lift ret].
  destruct (get_prop (Some payload) "clientUiCapabilities") as [e|caps] eqn:Hc;
    [right; cbn; eauto 6|].
  destruct (get_prop_total _ _ "userAction" _ Hc) as [ua Hua].
  destruct (get_prop_total _ _ "request" _ Hc) as [request Hr].
  rewrite Hua, Hr. cbn [lift ret read_catalog].
  destruct (truthy caps) eqn:Tc; cbn [orb].
  - right. destruct caps as [[| b | mant ex | s | items | fields]|]; cbn; eauto 6.
    destruct (assoc "dynamicCatalog" fields); cbn; eauto 6.
  - destruct (truthy ua); [right; cbn; eauto 6|].
    destruct (negb (truthy request) || negb (truthy (catalog m))); [right; cbn; eauto 6|].
    destruct (isObject request); [left; eauto | right; cbn; eauto 6].
Qed.

Lemma dispatch_client model text m : client (snd (dispatch model text m)) = client m.
Proof.
  unfold dispatch, bind.
  destruct (JSON_parse text) as [e|payload] eqn:Hp; [reflexivity|].
  cbn [lift ret].
  destruct (get_prop (Some payload) "clientUiCapabilities") as [e|caps] eqn:Hc; [reflexivity|].
  destruct (get_prop_total _ _ "userAction" _ Hc) as [ua Hua].
  destruct (get_prop_total _ _ "request" _ Hc) as [request Hr].
  rewrite Hua, Hr. cbn [lift ret read_catalog].
  destruct (truthy caps) eqn:Tc; cbn [orb].
  - destruct caps as [[| b | mant ex | s | items | fields]|]; try reflexivity.
    cbn. destruct (assoc "dynamicCatalog" fields); reflexivity.
  - destruct (truthy ua); [reflexivity|].
    destruct (negb (truthy request) || negb (truthy (catalog m))); [reflexivity|].
    destruct (isObject request); [apply generate_client | reflexivity].
Qed.


Lemma caught_never_throws r e : fst (caught r) <> Thrown e.
Proof. destruct r as [[| e' |] m']; discriminate. Qed.

Lemma caught_client r : client (snd (caught r)) = client (snd r).
Proof. destruct r as [[| e' |] m']; reflexivity. Qed.

Lemma caught_issued r : issued (snd (caught r)) = issued (snd r).
Proof. destruct r as [[| e' |] m']; reflexivity. Qed.


Lemma serve_never_throws m x e : fst (serve m x) <> Thrown e.
Proof.
  destruct (String.eqb_spec (method (req x)) "POST") as [HP|HP].
  - rewrite (serve_post _ _ HP), on_end_caught. apply caught_never_throws.
  - rewrite (serve_other _ _ HP). discriminate.
Qed.

Lemma serve_client m x :
  client (snd (serve m x)) = client (ready x m).
Proof.
  destruct (String.eqb_spec (method (req x)) "POST") as [HP|HP].
  - rewrite (serve_post _ _ HP), on_end_caught, caught_client. apply dispatch_client.
  - rewrite (serve_other _ _ HP). reflexivity.
Qed.


End Paths.

(** ** The process, request after request *)

Section Process.
Context {collaborators : Collaborators}.



Lemma serve_announcement m x v :
  announces x v ->
  serve m x = (Done tt, answer 200 ACK_BODY (with_catalog (Some v) (ready x m))).
Proof.
  intros (HP & payload & fields & Hp & Hc & Hv).
  rewrite (serve_post _ _ HP). eapply on_end_announcement; eassumption.
Qed.

Lemma serve_refused m x request :
  generation_request x request ->
  truthy request = false \/ truthy (catalog m) = false ->
  serve m x = (Done tt, answer 400 NO_CATALOG_BODY (ready x m)).
Proof.
  intros (HP & payload & caps & ua & Hp & Hc & Tc & Hua & Tua & Hr) Hor.
  rewrite (serve_post _ _ HP). eapply on_end_refused; try eassumption.
  rewrite ready_catalog. exact Hor.
Qed.


End Process.

(** ** What a run of the generation path leaves behind *)

Section Outcomes.
Context {collaborators : Collaborators}.

Lemma first_content_nothing response :
  returns_nothing response -> OpenAI.first_content response = "".
Proof.
  unfold returns_nothing, OpenAI.first_content.
  destruct (OpenAI.choices response) as [|choice ?]; [reflexivity|].
  destruct (OpenAI.message choice) as [msg|]; [|reflexivity].
  intros ->. reflexivity.
Qed.

Lemma serve_generation m x request :
  generation_request x request ->
  truthy request = true ->
  truthy (catalog m) = true ->
  serve m x =
    caught (if isObject request then generate (select_model (env x)) request (ready x m)
            else (Thrown (Error "Expected request to be an object"), ready x m)).
Proof.
  intros (HP & payload & caps & ua & Hp & Hc & Tc & Hua & Tua & Hr) Tr Tcat.
  rewrite (serve_post _ _ HP), on_end_caught. f_equal.
  eapply dispatch_generation; try eassumption. rewrite ready_catalog. exact Tcat.
Qed.

Lemma settles_fields c params m r m' :
  settles c params m r m' ->
  res m' = res m /\ catalog m' = catalog m /\ client m' = client m /\
  issued m' = (issued m ++ [(c, params)])%list.
Proof. destruct 1; cbn; auto. Qed.

Lemma describes_fields model request c m r m' :
  describes model request c m r m' ->
  res m' = res m /\ catalog m' = catalog m.
Proof.
  destruct 1; auto.
  match goal with H : settles _ _ _ _ _ |- _ => apply settles_fields in H end. tauto.
Qed.

Lemma passes_not_done {A B} (r : result A) (b : B) : passes r <> Done b.
Proof. destruct r; discriminate. Qed.

(** A run of [generate] that does not end normally has sent nothing. *)
Lemma generates_unanswered model request c m r m' :
  generates model request c m r m' ->
  r <> Done tt ->
  res m' = res m.
Proof.
  destruct 1 as [r0 m1 D Hnd | d m1 e D Hi | d m1 ins e D Hi Hp | d m1 ins parts r0 m2 D Hi Hp HS];
    intros Hr; try (apply describes_fields in D; tauto).
  apply describes_fields in D. apply settles_fields in HS.
  destruct D as [D _]. destruct HS as [HS _].
  destruct r0; [congruence | |]; congruence.
Qed.

End Outcomes.

Section Traffic.
Context {collaborators : Collaborators}.

(** The calls a run of [generate] adds, all with the model it was given,
    and the fate of the run when one of them is rejected. *)
Lemma generates_traffic model request c m r m' :
  generates model request c m r m' ->
  exists calls,
    issued m' = (issued m ++ calls)%list /\
    Forall (fun call => fst call = c /\ OpenAI.model (snd call) = model) calls /\
    forall n reason,
      nth_error (provider m) n = Some (OpenAI.rejected reason) ->
      (n < length calls)%nat ->
      r = Thrown reason /\ length calls = S n.
Proof.
  assert (Hdesc : forall r0 m1, describes model request c m r0 m1 ->
    (m1 = m /\ (forall d, r0 = Done d -> d = "")) \/
    exists parts, issued m1 = (issued m ++ [(c, image_call model parts)])%list /\
      match r0 with
      | Done _ => exists first rest, provider m = OpenAI.fulfilled first :: rest /\ provider m1 = rest
      | Thrown e => exists rest, provider m = OpenAI.rejected e :: rest
      | Pending => provider m = []
      end).
  { intros r0 m1 D. destruct D as [| | | | | s parts r1 m1 Hi Hpre Hm Hp HS];
      try (left; split; [reflexivity | congruence]).
    right. exists parts. destruct HS; cbn; eauto. }
  assert (Hone : forall (call : OpenAI.t * OpenAI.ChatCompletionCreateParams),
            fst call = c /\ OpenAI.model (snd call) = model ->
            Forall (fun call => fst call = c /\ OpenAI.model (snd call) = model) [call]).
  { intros call H. constructor; [exact H | constructor]. }
  intros G.
  destruct G as [r0 m1 D Hnd | d m1 e D Hi | d m1 ins e D Hi Hp | d m1 ins parts r0 m2 D Hi Hp HS].
  - destruct (Hdesc _ _ D) as [[-> _] | (parts & Hiss & Hscript)].
    + exists []. rewrite app_nil_r. split; [reflexivity|]. split; [apply List.Forall_nil|].
      intros n reason _ Hlt. cbn in Hlt. lia.
    + exists [(c, image_call model parts)]. split; [exact Hiss|]. split; [apply Hone; auto|].
      intros n reason Hn Hlt. cbn in Hlt. assert (n = 0)%nat as -> by lia.
      destruct r0 as [d|e|].
      * destruct (Hnd d eq_refl).
      * destruct Hscript as (rest & Hs). rewrite Hs in Hn. cbn in Hn. injection Hn as ->. auto.
      * rewrite Hscript in Hn. discriminate.
  - destruct (Hdesc _ _ D) as [[-> _] | (parts & Hiss & first & rest & Hs & _)].
    + exists []. rewrite app_nil_r. split; [reflexivity|]. split; [apply List.Forall_nil|].
      intros n reason _ Hlt. cbn in Hlt. lia.
    + exists [(c, image_call model parts)]. split; [exact Hiss|]. split; [apply Hone; auto|].
      intros n reason Hn Hlt. cbn in Hlt. assert (n = 0)%nat as -> by lia.
      rewrite Hs in Hn. discriminate.
  - destruct (Hdesc _ _ D) as [[-> _] | (parts & Hiss & first & rest & Hs & _)].
    + exists []. rewrite app_nil_r. split; [reflexivity|]. split; [apply List.Forall_nil|].
      intros n reason _ Hlt. cbn in Hlt. lia.
    + exists [(c, image_call model parts)]. split; [exact Hiss|]. split; [apply Hone; auto|].
      intros n reason Hn Hlt. cbn in Hlt. assert (n = 0)%nat as -> by lia.
      rewrite Hs in Hn. discriminate.
  - assert (Hiss2 : issued (match r0 with
                            | Done response =>
                                answer 200
                                  (JSON_stringify (model_envelope (OpenAI.first_content response))) m2
                            | _ => m2
                            end) = (issued m1 ++ [(c, a2ui_call model parts)])%list).
    { destruct (settles_fields _ _ _ _ _ HS) as (_ & _ & _ & H). destruct r0; exact H. }
    rewrite Hiss2.
    destruct (Hdesc _ _ D) as [[-> _] | (parts1 & Hiss & first & rest & Hs & Hrest)].
    + exists [(c, a2ui_call model parts)]. split; [reflexivity|]. split; [apply Hone; auto|].
      intros n reason Hn Hlt. cbn in Hlt. assert (n = 0)%nat as -> by lia.
      destruct HS as [Hs | response rest Hs | reason' rest Hs]; rewrite Hs in Hn;
        try discriminate. injection Hn as ->. auto.
    + exists [(c, image_call model parts1); (c, a2ui_call model parts)].
      rewrite Hiss, <- app_assoc. split; [reflexivity|].
      split; [constructor; [auto | apply Hone; auto]|].
      intros n reason Hn Hlt. cbn in Hlt. rewrite Hs in Hn.
      destruct n as [|[|n]]; [discriminate | | lia]. cbn in Hn.
      destruct HS as [Hs' | response rest' Hs' | reason' rest' Hs']; rewrite Hrest in Hs';
        rewrite Hs' in Hn; try discriminate. injection Hn as ->. auto.
Qed.

End Traffic.

Section Catch.
Context {collaborators : Collaborators}.


Lemma dispatch_traffic model text m c :
  client m = Some c ->
  exists calls,
    issued (snd (dispatch model text m)) = (issued m ++ calls)%list /\
    Forall (fun call => fst call = c /\ OpenAI.model (snd call) = model) calls /\
    forall n reason,
      nth_error (provider m) n = Some (OpenAI.rejected reason) ->
      (n < length calls)%nat ->
      fst (dispatch model text m) = Thrown reason /\ length calls = S n.
Proof.
  intros Hc.
  destruct (dispatch_paths model text m) as [(request & E) | (Hiss & _)].
  - rewrite E. apply generates_traffic with (request := request) (c := c) (m := m).
    apply generate_generates, Hc.
  - exists []. rewrite app_nil_r. split; [exact Hiss|]. split; [apply List.Forall_nil|].
    intros n reason _ Hlt. cbn in Hlt. lia.
Qed.

End Catch.

(** ** The provider settings *)

Section Environment.
Context {collaborators : Collaborators}.

Lemma select_model_by_priority env : select_model env = model_by_priority env.
Proof.
  unfold select_model, model_by_priority, is_set, or_else.
  destruct (truthy_str (env !! "AI_MODEL")); [reflexivity|]. cbn.
  destruct (truthy_str (env !! "GEMINI_API_KEY") && negb (truthy_str (env !! "OPENAI_API_KEY")));
    reflexivity.
Qed.

Lemma init_client_fresh env m :
  client m = None ->
  client (snd (init_client env m)) = Some (OpenAI.new (credential env) (endpoint env)).
Proof.
  intros Hn. unfold init_client. rewrite Hn. cbn [snd with_client client].
  unfold credential, endpoint, is_set, or_else.
  destruct (truthy_str (env !! "OPENAI_API_KEY")) eqn:Ho,
           (truthy_str (env !! "GEMINI_API_KEY")) eqn:Hg,
           (truthy_str (env !! "OPENAI_BASE_URL")) eqn:Hb;
    cbn; rewrite ?Ho, ?Hg; reflexivity.
Qed.

Lemma init_client_kept env m c :
  client m = Some c -> client (snd (init_client env m)) = Some c.
Proof. intros Hc. unfold init_client. rewrite Hc. exact Hc. Qed.

Lemma serve_all_client_kept m xs c :
  client m = Some c -> client (serve_all m xs) = Some c.
Proof.
  revert m. induction xs as [|x xs IH]; intros m Hc; [exact Hc|].
  cbn. apply IH. rewrite serve_client. unfold ready. apply init_client_kept. exact Hc.
Qed.

End Environment.

(** ** Reading fields and MIME types *)


Lemma capture_needs_semicolon s :
  occurs ";" s = false -> capture_upto_semicolon s = None.
Proof.
  induction s as [|c t IH]; [reflexivity|]. cbn [occurs capture_upto_semicolon].
  intros H. apply orb_false_elim in H as [Hc Ht]. rewrite (IH Ht).
  rewrite Ascii.eqb_sym, Hc. destruct (is_line_terminator c); reflexivity.
Qed.

Lemma occurs_drop c n s : occurs c s = false -> occurs c (drop n s) = false.
Proof.
  revert s. induction n as [|n IH]; intros s H; [exact H|].
  destruct s as [|c' t]; [reflexivity|]. cbn [drop]. apply IH.
  cbn in H. apply orb_false_elim in H. tauto.
Qed.

(** Without a semicolon there is no MIME type to find. *)
Lemma exec_data_mime_needs_semicolon s :
  occurs ";" s = false -> exec_data_mime s = None.
Proof.
  induction s as [|c t IH]; [reflexivity|]. intros H.
  cbn [exec_data_mime].
  rewrite (capture_needs_semicolon _ (occurs_drop _ 5 _ H)).
  assert (Ht : occurs ";" t = false) by (cbn in H; apply orb_false_elim in H; tauto).
  rewrite (IH Ht). destruct (String.prefix "data:" (String c t)); reflexivity.
Qed.

(** ** Requests that succeed *)

Section Success.
Context {collaborators : Collaborators}.

(** The two ways a generation request succeeds. *)
Lemma generation_succeeds_without_image m x request imageData instructions parts only rest :
  generation_request x request ->
  truthy request = true ->
  truthy (catalog m) = true ->
  isObject request = true ->
  get_prop request "imageData" = inr imageData ->
  is_data_uri imageData = false ->
  truthy imageData = false \/ (exists s, imageData = Some (JStr s)) ->
  get_prop request "instructions" = inr instructions ->
  createA2UIPrompt (catalog m) "" instructions = inr parts ->
  outcomes x = OpenAI.fulfilled only :: rest ->
  fst (serve m x) = Done tt /\
  statusCode (res (snd (serve m x))) = 200%Z /\
  sent (res (snd (serve m x)))
  = Some (JSON_stringify (model_envelope (OpenAI.first_content only))).
Proof.
  intros Hg Tr Tcat Hobj Hi Hnd Hshape Hins Hp Hout.
  destruct (ready_fields x m) as (Hres & Hfw & Hiss & Hprov).
  destruct (ready_client x m) as [c Hc].
  rewrite (serve_generation m x request Hg Tr Tcat), Hobj.
  unfold generate, describe, bind. rewrite Hi. cbn [lift ret].
  assert (E : match imageData with
              | Some (JStr s) =>
                  if truthy imageData && String.prefix "data:" s
                  then describe_image (select_model (env x)) s
                  else ret ""
              | _ =>
                  if truthy imageData
                  then throw (TypeError "request.imageData.startsWith is not a function")
                  else ret ""
              end = ret "").
  { destruct Hshape as [Hf | [s ->]].
    - rewrite Hf. destruct imageData as [[]|]; reflexivity.
    - rewrite guard_eq. cbn in Hnd. rewrite Hnd. reflexivity. }
  rewrite E. cbn [ret read_catalog]. rewrite Hins. cbn [lift ret].
  rewrite ready_catalog, Hp. cbn [lift ret]. unfold create. rewrite Hc, Hprov, Hout.
  cbn. auto.
Qed.

Lemma create_fulfilled params m c response rest :
  client m = Some c ->
  provider m = OpenAI.fulfilled response :: rest ->
  create params m = (Done response, called c params rest m).
Proof. intros Hc Hp. unfold create. rewrite Hc, Hp. reflexivity. Qed.

Lemma describe_with_image model request m c s parts first rest :
  client m = Some c ->
  get_prop request "imageData" = inr (Some (JStr s)) ->
  String.prefix "data:" s = true ->
  truthy_str (exec_data_mime s) = true ->
  createImageParsePrompt (catalog m) (inline_part s) = inr parts ->
  provider m = OpenAI.fulfilled first :: rest ->
  describe model request m
  = (Done (OpenAI.first_content first), called c (image_call model parts) rest m).
Proof.
  intros Hc Hi Hpre Hmime Hp Hout.
  unfold describe, bind. rewrite Hi. cbn [lift ret]. rewrite guard_eq, Hpre.
  unfold describe_image, bind. rewrite Hmime. cbn [negb read_catalog].
  fold (inline_part s). rewrite Hp. cbn [lift ret].
  change (create _ m) with (create (image_call model parts) m).
  rewrite (create_fulfilled _ _ _ _ _ Hc Hout). reflexivity.
Qed.

Lemma generation_succeeds_with_image m x request s instructions parts1 first parts2 second rest :
  generation_request x request ->
  truthy request = true ->
  truthy (catalog m) = true ->
  isObject request = true ->
  get_prop request "imageData" = inr (Some (JStr s)) ->
  String.prefix "data:" s = true ->
  truthy_str (exec_data_mime s) = true ->
  createImageParsePrompt (catalog m) (inline_part s) = inr parts1 ->
  get_prop request "instructions" = inr instructions ->
  createA2UIPrompt (catalog m) (OpenAI.first_content first) instructions = inr parts2 ->
  outcomes x = OpenAI.fulfilled first :: OpenAI.fulfilled second :: rest ->
  fst (serve m x) = Done tt /\
  statusCode (res (snd (serve m x))) = 200%Z /\
  sent (res (snd (serve m x)))
  = Some (JSON_stringify (model_envelope (OpenAI.first_content second))).
Proof.
  intros Hg Tr Tcat Hobj Hi Hpre Hmime Hp1 Hins Hp2 Hout.
  destruct (ready_fields x m) as (Hres & Hfw & Hiss & Hprov).
  destruct (ready_client x m) as [c Hc].
  pose proof (ready_catalog x m) as Hcat.
  rewrite (serve_generation m x request Hg Tr Tcat), Hobj.
  unfold generate. rewrite bind_unfold.
  rewrite (describe_with_image _ _ _ c s parts1 first (OpenAI.fulfilled second :: rest) Hc Hi Hpre
             Hmime) by (rewrite ?Hcat, ?Hprov; assumption).
  unfold bind. cbn [read_catalog]. rewrite Hins. cbn [lift ret called with_traffic catalog].
  rewrite Hcat, Hp2. cbn [lift ret].
  change (create _ ?m0) with (create (a2ui_call (select_model (env x)) parts2) m0).
  erewrite create_fulfilled by (cbn; eauto).
  cbn. auto.
Qed.
End Success.

(** * The claims *)




(** C2, as amended. For every generation request (a truthy catalog is
    stored and [request] passes the object guard) whose [imageData] is a
    string that starts with [data:] and in which the MIME pattern finds no
    match or an empty type, the handler calls no model and answers 400
    with the body [{"error":"Invalid message - Error: Invalid inline data"}]. *)
Theorem unparsable_mime_is_invalid_inline_data :
  forall (collaborators : Collaborators) (m : machine) (x : exchange) (request : value)
         (s : string),
    generation_request x request ->
    truthy request = true ->
    truthy (catalog m) = true ->
    isObject request = true ->
    get_prop request "imageData" = inr (Some (JStr s)) ->
    String.prefix "data:" s = true ->
    truthy_str (exec_data_mime s) = false ->
    fst (serve m x) = Done tt /\
    statusCode (res (snd (serve m x))) = 400%Z /\
    headers (res (snd (serve m x))) = JSON_HEADERS /\
    sent (res (snd (serve m x))) = Some INVALID_INLINE_DATA_BODY /\
    issued (snd (serve m x)) = [].
Proof.
  intros C m x request s Hg Tr Tcat Hobj Hi Hpre Hmime.
  destruct (ready_fields x m) as (Hres & Hfw & Hiss & Hprov).
  rewrite (serve_generation m x request Hg Tr Tcat), Hobj.
  unfold generate, describe, bind. rewrite Hi. cbn [lift ret]. rewrite guard_eq, Hpre.
  unfold describe_image. rewrite Hmime. cbn. rewrite Hres, Hiss. cbn. auto.
Qed.

(** A data URI without a semicolon after its MIME type. *)
Lemma unparsable_mime_is_invalid_inline_data_witness :
  sent (res (snd (@serve sample_collaborators announced (image_request "data:image/png"))))
  = Some INVALID_INLINE_DATA_BODY.
Proof.
  apply (unparsable_mime_is_invalid_inline_data sample_collaborators announced
           (image_request "data:image/png")
           (Some (JObj [("instructions", JStr "hello"); ("imageData", JStr "data:image/png")]))
           "data:image/png").
  - split; [reflexivity|]. eexists _, _, _. repeat split; reflexivity.
  - reflexivity.
  - reflexivity.
  - reflexivity.
  - reflexivity.
  - reflexivity.
  - reflexivity.
Defined.

(** C2 as stated fails on [imageData = "hello"]: it is present and is
    not of the shape of a data URI, yet the request is not rejected. The
    guard [startsWith("data:")] skips the image step, one model call is
    made and its text comes back with status 200. Nor is a data URI that
    is not base64 rejected: all the pattern asks for is a semicolon. *)
Lemma image_data_without_prefix_is_not_rejected :
  generation_request (image_request "hello")
    (Some (JObj [("instructions", JStr "hello"); ("imageData", JStr "hello")])) /\
  catalog announced = Some sample_catalog /\
  String.prefix "data:" "hello" = false /\
  statusCode (res (snd (@serve sample_collaborators announced (image_request "hello")))) = 200%Z /\
  sent (res (snd (@serve sample_collaborators announced (image_request "hello"))))
  = Some (sq "{'role':'model','parts':[{'text':'a cat'}]}") /\
  exec_data_mime "data:text/plain;charset=utf-8,hi" = Some "text/plain" /\
  statusCode (res (snd (@serve sample_collaborators announced
                          (image_request "data:text/plain;charset=utf-8,hi")))) = 200%Z.
Proof.
  split; [|repeat split; reflexivity].
  split; [reflexivity|]. eexists _, _, _. repeat split; reflexivity.
Qed.

(** C3, as amended. For every generation request answered with status
    200: when [request.imageData] is a string that starts with [data:]
    the handler has made exactly two calls, the image-description call
    and then the UI-generation call, the prompt of the second being built
    from the text the provider returned for the first; in every other
    case (no [imageData], a falsy one, a string without the prefix) it has
    made exactly the UI-generation call, with an empty image description.
    Either way both calls go through the one client, the body is the
    text of the last call wrapped as
    [{"role":"model","parts":[{"text":...}]}], and that text is empty
    when the provider returns no choice, no message or no content. *)
Theorem generation_calls_in_order :
  forall (collaborators : Collaborators) (m : machine) (x : exchange) (request : value)
         (body : string),
    generation_request x request ->
    statusCode (res (snd (serve m x))) = 200%Z ->
    sent (res (snd (serve m x))) = Some body ->
    exists imageData instructions c,
      get_prop request "imageData" = inr imageData /\
      get_prop request "instructions" = inr instructions /\
      client (snd (serve m x)) = Some c /\
      (if is_data_uri imageData then
         exists s parts1 first parts2 second rest,
           imageData = Some (JStr s) /\
           createImageParsePrompt (catalog m) (inline_part s) = inr parts1 /\
           outcomes x = OpenAI.fulfilled first :: OpenAI.fulfilled second :: rest /\
           createA2UIPrompt (catalog m) (OpenAI.first_content first) instructions = inr parts2 /\
           issued (snd (serve m x))
           = [(c, image_call (select_model (env x)) parts1);
              (c, a2ui_call (select_model (env x)) parts2)] /\
           body = JSON_stringify (model_envelope (OpenAI.first_content second))
       else
         exists parts only rest,
           outcomes x = OpenAI.fulfilled only :: rest /\
           createA2UIPrompt (catalog m) "" instructions = inr parts /\
           issued (snd (serve m x)) = [(c, a2ui_call (select_model (env x)) parts)] /\
           body = JSON_stringify (model_envelope (OpenAI.first_content only))) /\
      (forall response,
          returns_nothing response ->
          JSON_stringify (model_envelope (OpenAI.first_content response)) = EMPTY_TEXT_BODY).
Proof.
  intros C m x request body Hg Hstatus Hsent.
  destruct (ready_fields x m) as (Hres & Hfw & Hiss & Hprov).
  destruct (ready_client x m) as [c Hc].
  pose proof (ready_catalog x m) as Hcat.
  (* the request is truthy and a catalog is stored, or the answer would be a 400 *)
  destruct (truthy request) eqn:Tr.
  2: { rewrite (serve_refused m x request Hg (or_introl Tr)) in Hstatus.
       cbn in Hstatus. discriminate. }
  destruct (truthy (catalog m)) eqn:Tcat.
  2: { rewrite (serve_refused m x request Hg (or_intror Tcat)) in Hstatus.
       cbn in Hstatus. discriminate. }
  rewrite (serve_generation m x request Hg Tr Tcat) in *.
  destruct (isObject request); [|cbn in Hstatus; discriminate].
  pose proof (generate_generates (select_model (env x)) request (ready x m) c Hc) as G.
  destruct (generate (select_model (env x)) request (ready x m)) as [r m''].
  cbn [fst snd] in G.
  destruct r as [[]|e|]; [|cbn in Hstatus; discriminate|].
  2: { cbn [caught snd] in Hsent.
       rewrite (generates_unanswered _ _ _ _ _ _ G ltac:(discriminate)), Hres in Hsent.
       cbn in Hsent. discriminate. }
  inversion G as [r0 m1 D Hnd | d m1 e D Hi | d m1 ins e D Hi Hp | d m1 ins parts r0 m2 D Hi Hp HS];
    subst.
  { match goal with H : passes _ = Done _ |- _ => destruct (passes_not_done _ _ H) end. }
  destruct r0 as [second|e|]; try discriminate. clear G.
  cbn in Hsent. injection Hsent as <-.
  assert (Hnothing : forall response, returns_nothing response ->
            JSON_stringify (model_envelope (OpenAI.first_content response)) = EMPTY_TEXT_BODY).
  { intros response Hn. rewrite (first_content_nothing response Hn). apply empty_text_body_eq. }
  inversion HS as [| second' rest Hrest |]; subst. clear HS Hstatus.
  cbn [caught snd answer with_res called with_traffic client issued].
  pose proof (describes_client _ _ _ _ _ _ D) as Hc1. rewrite Hc in Hc1.
  inversion D as [| imageData Hi' Hnd Hshape | | | | s parts1 r1 m1' Hi' Hpre Hmime Hp1 S1 Hr1];
    subst.
  - (* no image step *)
    exists imageData, ins, c. repeat split; try assumption.
    rewrite Hnd. exists parts, second, rest. rewrite <- Hprov, <- Hcat, Hiss.
    repeat split; assumption || reflexivity.
  - (* the image was described first *)
    destruct r1 as [first|e|]; cbn in Hr1; try discriminate.
    injection Hr1 as <-.
    inversion S1 as [| first' rest1 Hrest1 |]; subst. clear S1.
    exists (Some (JStr s)), ins, c. repeat split; try assumption.
    cbn [is_data_uri]. rewrite Hpre.
    cbn in Hrest, Hp.
    exists s, parts1, first, parts, second, rest. rewrite <- Hprov, <- Hcat.
    repeat split; try assumption.
    + rewrite Hrest1, Hrest. reflexivity.
    + cbn. rewrite Hiss. reflexivity.
Qed.

(** A request with a well-formed data URI makes two calls. *)
Lemma generation_calls_in_order_witness :
  length (issued (snd (@serve sample_collaborators announced
                         (image_request "data:image/png;base64,AAAA")))) = 2%nat.
Proof.
  destruct (generation_calls_in_order sample_collaborators announced
              (image_request "data:image/png;base64,AAAA")
              (Some (JObj [("instructions", JStr "hello");
                           ("imageData", JStr "data:image/png;base64,AAAA")]))
              UI_BODY)
    as (imageData & instructions & c & Hi & _ & _ & Hcalls & _).
  - split; [reflexivity|]. eexists _, _, _. repeat split; reflexivity.
  - reflexivity.
  - reflexivity.
  - injection Hi as <-. cbn [is_data_uri] in Hcalls.
    destruct Hcalls as (s & parts1 & first & parts2 & second & rest & _ & _ & _ & _ & -> & _).
    reflexivity.
Defined.

(** C3 as stated fails on [imageData = "hello"]: the field is supplied
    and the request succeeds, with one model call and not two. *)
Lemma supplied_image_data_with_one_call :
  generation_request (image_request "hello")
    (Some (JObj [("instructions", JStr "hello"); ("imageData", JStr "hello")])) /\
  statusCode (res (snd (@serve sample_collaborators announced (image_request "hello")))) = 200%Z /\
  length (issued (snd (@serve sample_collaborators announced (image_request "hello")))) = 1%nat.
Proof.
  split; [|repeat split; reflexivity].
  split; [reflexivity|]. eexists _, _, _. repeat split; reflexivity.
Qed.

(** C4. For every POST payload whose [clientUiCapabilities] field is an
    object with a [dynamicCatalog] key, whatever the machine was, the
    handler stores the announced value in place of the old catalog, ends
    the response with status 200, the JSON content type and the exact body
    [{"role":"model","parts":[{"text":"Dynamic Catalog Received"}]}], and
    calls no model. *)
Theorem announcement_overwrites_and_acknowledges :
  forall (collaborators : Collaborators) (m : machine) (x : exchange) (v : json),
    announces x v ->
    fst (serve m x) = Done tt /\
    catalog (snd (serve m x)) = Some v /\
    statusCode (res (snd (serve m x))) = 200%Z /\
    headers (res (snd (serve m x))) = JSON_HEADERS /\
    sent (res (snd (serve m x))) = Some ACK_BODY /\
    issued (snd (serve m x)) = [].
Proof.
  intros C m x v H. rewrite (serve_announcement m x v H). cbn [fst snd].
  destruct (ready_fields x m) as (Hres & Hf & Hi & _).
  cbn. rewrite Hres, Hi. cbn. auto 10.
Qed.

(** The scenario of the specification: the body
    [{"clientUiCapabilities":{"dynamicCatalog":{"components":[]}}}]. *)
Lemma announcement_overwrites_and_acknowledges_witness :
  contents (req announcement)
  = sq "{'clientUiCapabilities':{'dynamicCatalog':{'components':[]}}}" /\
  statusCode (res (snd (@serve sample_collaborators boot announcement))) = 200%Z /\
  sent (res (snd (@serve sample_collaborators boot announcement)))
  = Some (sq "{'role':'model','parts':[{'text':'Dynamic Catalog Received'}]}") /\
  catalog (snd (@serve sample_collaborators boot announcement)) = Some sample_catalog.
Proof.
  destruct (announcement_overwrites_and_acknowledges sample_collaborators boot announcement
              sample_catalog)
    as (_ & Hcat & Hstatus & _ & Hsent & _).
  - split; [reflexivity|]. eexists _, _. repeat split; reflexivity.
  - repeat split; assumption || reflexivity.
Defined.



(** C6, as amended. The provider client is one lazy instance, built by
    the first request of any kind that reaches the middleware and not by
    the first generation request: it is unset when the module is loaded,
    set once the first request has been served, and every later request
    finds and keeps that same instance. It is built with the first
    credential set among [OPENAI_API_KEY] and [GEMINI_API_KEY], and with
    the base URL override if one is set, Google's OpenAI-compatible
    endpoint if only the legacy credential is set, none otherwise. *)
Theorem client_built_by_first_request :
  forall (collaborators : Collaborators) (x : exchange) (later : list exchange),
    client boot = None /\
    client (snd (serve boot x)) = Some (OpenAI.new (credential (env x)) (endpoint (env x))) /\
    client (serve_all boot (x :: later)) = client (snd (serve boot x)).
Proof.
  intros C x later.
  assert (H : client (snd (serve boot x))
              = Some (OpenAI.new (credential (env x)) (endpoint (env x)))).
  { rewrite serve_client. unfold ready. apply init_client_fresh. reflexivity. }
  repeat split; [exact H|].
  cbn [serve_all fold_left]. rewrite H. apply (serve_all_client_kept _ later _ H).
Qed.

(** C6 as stated fails on a process whose only request so far is a
    catalog announcement: no generation request has been processed and
    the client is already there. *)
Lemma client_built_by_an_announcement :
  announces announcement sample_catalog /\
  client (@serve_all sample_collaborators boot [announcement])
  = Some (OpenAI.new "sk-test" None).
Proof.
  split; [|reflexivity].
  split; [reflexivity|]. eexists _, _. repeat split; reflexivity.
Qed.

(** C7. For every request, the model of every call made while it is
    handled is the one resolved in this order: [AI_MODEL] if it is set,
    else the legacy default [gemini-2.5-flash] if only the legacy
    credential is set, else the general default [gpt-4o]. *)
Theorem model_resolved_by_priority :
  forall (collaborators : Collaborators) (m : machine) (x : exchange),
    select_model (env x) = model_by_priority (env x) /\
    Forall (fun call => OpenAI.model (snd call) = model_by_priority (env x))
           (issued (snd (serve m x))).
Proof.
  intros C m x. split; [apply select_model_by_priority|].
  destruct (ready_fields x m) as (_ & _ & Hiss & _).
  destruct (ready_client x m) as [c Hc].
  destruct (String.eqb_spec (method (req x)) "POST") as [HP|HP].
  - rewrite (serve_post _ _ HP), on_end_caught, caught_issued.
    destruct (dispatch_traffic (select_model (env x)) (contents (req x)) (ready x m) c Hc)
      as (calls & -> & Hall & _).
    rewrite Hiss. cbn. eapply Forall_impl; [exact Hall|].
    intros call [_ Hm]. rewrite Hm. apply select_model_by_priority.
  - rewrite (serve_other _ _ HP). cbn. rewrite Hiss. apply List.Forall_nil.
Qed.

(** C8. Building the plugin throws exactly when neither
    [OPENAI_API_KEY] nor [GEMINI_API_KEY] is set, and otherwise yields the
    plugin that mounts the middleware, so that a mounted middleware had a
    credential when it was built. The failure belongs to construction:
    serving a request never throws, whatever the environment is by then. *)
Theorem plugin_throws_without_credential :
  forall (env : ProcessEnv),
    (plugin env = inl (Error NO_API_KEY_MESSAGE) <->
     is_set env "OPENAI_API_KEY" = false /\ is_set env "GEMINI_API_KEY" = false) /\
    (plugin env = inr {| name := "custom-ai-handler"; route := "/a2ui" |} <->
     is_set env "OPENAI_API_KEY" = true \/ is_set env "GEMINI_API_KEY" = true) /\
    (forall (collaborators : Collaborators) (m : machine) (x : exchange) (e : exn),
        fst (serve m x) <> Thrown e).
Proof.
  intros env. unfold plugin, is_set, or_else.
  destruct (truthy_str (env !! "OPENAI_API_KEY")) eqn:Ho; cbn.
  - rewrite Ho. cbn. repeat split; try discriminate; auto.
    + intros [? ?]; discriminate.
    + intros; apply serve_never_throws.
  - destruct (truthy_str (env !! "GEMINI_API_KEY")) eqn:Hg; cbn.
    + repeat split; try discriminate; auto.
      * intros [? ?]; discriminate.
      * intros; apply serve_never_throws.
    + repeat split; try discriminate; auto.
      * intros [?|?]; discriminate.
      * intros; apply serve_never_throws.
Qed.

(** C9, as amended. For every POST payload whose [clientUiCapabilities]
    field is an object without a [dynamicCatalog] key, or an array, the
    handler ends normally without writing any response, success or error,
    calls no model and leaves the catalog alone; a [userAction] or a
    [request] field beside it changes nothing, as the payload is
    otherwise arbitrary. *)
Theorem capabilities_without_catalog_go_unanswered :
  forall (collaborators : Collaborators) (m : machine) (x : exchange)
         (payload clientUiCapabilities : json),
    method (req x) = "POST" ->
    JSON_parse (contents (req x)) = inr payload ->
    get_prop (Some payload) "clientUiCapabilities" = inr (Some clientUiCapabilities) ->
    (exists fields,
        clientUiCapabilities = JObj fields /\ assoc "dynamicCatalog" fields = None) \/
    (exists items, clientUiCapabilities = JArr items) ->
    fst (serve m x) = Done tt /\
    sent (res (snd (serve m x))) = None /\
    res (snd (serve m x)) = fresh_response /\
    forwarded (snd (serve m x)) = false /\
    issued (snd (serve m x)) = [] /\
    catalog (snd (serve m x)) = catalog m.
Proof.
  intros C m x payload caps HP Hp Hc Hshape.
  destruct (ready_fields x m) as (Hres & Hfw & Hiss & Hprov).
  rewrite (serve_post _ _ HP).
  rewrite (on_end_silent _ _ _ _ _ Hp Hc Hshape). cbn [fst snd].
  rewrite Hres, Hfw, Hiss, ready_catalog. cbn. auto 10.
Qed.

(** Empty capabilities beside a user action and a request. *)
Lemma capabilities_without_catalog_go_unanswered_witness :
  sent (res (snd (@serve sample_collaborators announced empty_capabilities))) = None.
Proof.
  apply (capabilities_without_catalog_go_unanswered sample_collaborators announced
           empty_capabilities
           (JObj [("clientUiCapabilities", JObj []);
                  ("userAction", JObj [("name", JStr "tap")]);
                  ("request", JObj [("instructions", JStr "hello")])])
           (JObj [])).
  - reflexivity.
  - reflexivity.
  - reflexivity.
  - left. exists []. split; reflexivity.
Defined.

(** C9 as stated fails on [{"clientUiCapabilities":true}]: [true] is a
    truthy value without a [dynamicCatalog] key, but the [in] operator
    throws on a value that is not an object, so the [catch] writes a 400
    response. *)
Lemma primitive_capabilities_are_answered :
  JSON_parse (contents (req primitive_capabilities))
  = inr (JObj [("clientUiCapabilities", JBool true)]) /\
  truthy (Some (JBool true)) = true /\
  statusCode (res (snd (@serve sample_collaborators boot primitive_capabilities))) = 400%Z /\
  sent (res (snd (@serve sample_collaborators boot primitive_capabilities))) <> None.
Proof. repeat split; try reflexivity. discriminate. Qed.



(** * Further properties *)

(** ** Texts *)

Lemma append_cons (x : ascii) (a b : string) : String x a ++ b = String x (a ++ b).
Proof. reflexivity. Qed.

Lemma append_assoc (a b c : string) : (a ++ b) ++ c = a ++ (b ++ c).
Proof. induction a as [|x a IH]; [reflexivity|]. rewrite !append_cons. f_equal. exact IH. Qed.

Lemma length_append (a b : string) :
  String.length (a ++ b) = (String.length a + String.length b)%nat.
Proof.
  induction a as [|x a IH]; [reflexivity|]. rewrite append_cons. cbn [String.length Nat.add].
  f_equal. exact IH.
Qed.

Lemma drop_length_append (a b : string) : drop (String.length a) (a ++ b) = b.
Proof. induction a as [|x a IH]; [reflexivity|]. exact IH. Qed.


Lemma prefix_split (a s : string) :
  String.prefix a s = true -> s = a ++ drop (String.length a) s.
Proof.
  revert s. induction a as [|x a IH]; intros s H; [reflexivity|].
  destruct s as [|y s]; [discriminate|]. cbn in H.
  destruct (ascii_dec x y) as [->|]; [|discriminate].
  cbn [String.length drop]. rewrite append_cons. f_equal. apply IH, H.
Qed.


Lemma capture_sound r m :
  capture_upto_semicolon r = Some m ->
  single_line m = true /\ exists post, r = m ++ String ";" post.
Proof.
  revert m. induction r as [|c t IH]; intros m H; [discriminate|].
  cbn in H. destruct (is_line_terminator c) eqn:Hc; [discriminate|].
  destruct (capture_upto_semicolon t) as [p|] eqn:Hp.
  - injection H as <-. destruct (IH p eq_refl) as (Hs & post & ->).
    split; [cbn; rewrite Hc, Hs; reflexivity | exists post; reflexivity].
  - destruct (Ascii.eqb_spec c ";") as [->|]; [|discriminate].
    injection H as <-. split; [reflexivity | exists t; reflexivity].
Qed.

(** ** What the parser reads back *)

(** What [JSON.parse] reads back from one quoted character. *)
Lemma parse_chars_quote_char c rest :
  parse_chars (quote_char c ++ rest) = push c (parse_chars rest).
Proof.
  destruct c as [[] [] [] [] [] [] [] []]; reflexivity.
Qed.

Lemma parse_chars_quote_chars t rest :
  parse_chars (quote_chars t ++ String dquote rest) = Some (t, rest).
Proof.
  induction t as [|c t IH]; [reflexivity|].
  cbn [quote_chars]. rewrite append_assoc, parse_chars_quote_char, IH. reflexivity.
Qed.

Lemma stringify_model_envelope t : JSON_stringify (model_envelope t) = MODEL_BODY t.
Proof.
  unfold model_envelope, MODEL_BODY. cbv beta iota zeta delta [JSON_stringify quote].
  rewrite !append_assoc. reflexivity.
Qed.

Lemma stringify_error_envelope d :
  JSON_stringify (error_envelope d) = ERROR_BODY ("Invalid message - " ++ d).
Proof.
  unfold error_envelope, ERROR_BODY. cbv beta iota zeta delta [JSON_stringify quote].
  rewrite !append_assoc. reflexivity.
Qed.

(** Steps of the parser on a text whose next token is known. *)
Lemma parse_string fuel t rest :
  parse_value (S fuel) (String dquote (quote_chars t ++ String dquote rest)) = Some (JStr t, rest).
Proof.
  transitivity (match parse_chars (quote_chars t ++ String dquote rest) with
                | Some (str, r) => Some (JStr str, r)
                | None => None
                end); [reflexivity|].
  rewrite parse_chars_quote_chars. reflexivity.
Qed.

Lemma parse_last_member fuel acc K k r v rest :
  parse_chars K = Some (k, String ":" r) ->
  parse_value fuel r = Some (v, String "}" rest) ->
  parse_members (S fuel) acc (String dquote K) = Some (JObj (set_field k v acc), rest).
Proof.
  intros HK Hv.
  transitivity (match parse_chars K with
                | None => None
                | Some (k, r) =>
                    match skip_ws r with
                    | String ":" r' =>
                        match parse_value fuel r' with
                        | None => None
                        | Some (v, r'') =>
                            match skip_ws r'' with
                            | String "," r3 => parse_members fuel (set_field k v acc) r3
                            | String "}" r3 => Some (JObj (set_field k v acc), r3)
                            | _ => None
                            end
                        end
                    | _ => None
                    end
                end); [reflexivity|].
  rewrite HK. cbn [skip_ws is_ws Ascii.eqb Bool.eqb orb]. rewrite Hv. reflexivity.
Qed.

Lemma parse_next_member fuel acc K k r v rest :
  parse_chars K = Some (k, String ":" r) ->
  parse_value fuel r = Some (v, String "," rest) ->
  parse_members (S fuel) acc (String dquote K) = parse_members fuel (set_field k v acc) rest.
Proof.
  intros HK Hv.
  transitivity (match parse_chars K with
                | None => None
                | Some (k, r) =>
                    match skip_ws r with
                    | String ":" r' =>
                        match parse_value fuel r' with
                        | None => None
                        | Some (v, r'') =>
                            match skip_ws r'' with
                            | String "," r3 => parse_members fuel (set_field k v acc) r3
                            | String "}" r3 => Some (JObj (set_field k v acc), r3)
                            | _ => None
                            end
                        end
                    | _ => None
                    end
                end); [reflexivity|].
  rewrite HK. cbn [skip_ws is_ws Ascii.eqb Bool.eqb orb]. rewrite Hv. reflexivity.
Qed.

Lemma parse_object fuel K :
  parse_value (S fuel) (String "{" (String dquote K)) = parse_members fuel [] (String dquote K).
Proof. reflexivity. Qed.

Lemma parse_single_element fuel K v rest :
  parse_value fuel (String "{" K) = Some (v, String "]" rest) ->
  parse_value (S (S fuel)) (String "[" (String "{" K)) = Some (JArr [v], rest).
Proof.
  intros Hv.
  transitivity (match parse_value fuel (String "{" K) with
                | None => None
                | Some (v, r) =>
                    match skip_ws r with
                    | String "," r' => parse_elements fuel ([] ++ [v])%list r'
                    | String "]" r' => Some (JArr ([] ++ [v])%list, r')
                    | _ => None
                    end
                end); [reflexivity|].
  rewrite Hv. reflexivity.
Qed.

Lemma parse_model_body fuel t :
  (9 <= fuel)%nat ->
  parse_value fuel (MODEL_BODY t) = Some (model_envelope t, "").
Proof.
  intros H. do 9 (destruct fuel as [|fuel]; [lia|]). clear H.
  change (MODEL_BODY t)
    with (String "{" (String dquote ("role" ++ String dquote (String ":" (String dquote ("model" ++ String dquote (String "," (String dquote ("parts" ++ String dquote (String ":" (String "[" (String "{" (String dquote ("text" ++ String dquote (String ":" (String dquote (quote_chars t ++ String dquote "}]}"))))))))))))))))).
  rewrite parse_object.
  erewrite parse_next_member; [| reflexivity | reflexivity].
  eapply eq_trans.
  { eapply parse_last_member; [reflexivity|].
    apply parse_single_element. rewrite parse_object.
    eapply parse_last_member; [reflexivity|].
    apply parse_string. }
  reflexivity.
Qed.

Lemma parse_error_body fuel message :
  (3 <= fuel)%nat ->
  parse_value fuel (ERROR_BODY message) = Some (JObj [("error", JStr message)], "").
Proof.
  intros H. do 3 (destruct fuel as [|fuel]; [lia|]). clear H.
  change (ERROR_BODY message)
    with (String "{" (String dquote ("error" ++ String dquote (String ":" (String dquote (quote_chars message ++ String dquote "}")))))).
  rewrite parse_object.
  eapply eq_trans.
  { eapply parse_last_member; [reflexivity|]. apply parse_string. }
  reflexivity.
Qed.

(** ** Every run of the handler *)

Section Runs.
Context {collaborators : Collaborators}.


Lemma settles_balance c params m r m' :
  settles c params m r m' ->
  (r = Pending /\ length (issued m') = S (length (issued m) + length (provider m))) \/
  (r <> Pending /\
   (length (issued m') + length (provider m') = length (issued m) + length (provider m))%nat).
Proof.
  destruct 1 as [Hp | response rest Hp | reason rest Hp]; cbn; rewrite Hp, length_app; cbn.
  - left. split; [reflexivity | lia].
  - right. split; [discriminate | lia].
  - right. split; [discriminate | lia].
Qed.

Lemma describes_balance model request c m r m' :
  describes model request c m r m' ->
  (r = Pending /\ length (issued m') = S (length (issued m) + length (provider m))) \/
  (r <> Pending /\
   (length (issued m') + length (provider m') = length (issued m) + length (provider m))%nat).
Proof.
  destruct 1 as [ | | | | | s parts r m' ? ? ? ? HS]; try (right; split; [discriminate | reflexivity]).
  destruct (settles_balance _ _ _ _ _ HS) as [[-> Hlen] | [Hn Hlen]].
  - left. split; [reflexivity | exact Hlen].
  - right. split; [|exact Hlen]. destruct r; [discriminate | discriminate | congruence].
Qed.

Lemma generates_balance model request c m r m' :
  generates model request c m r m' ->
  (r = Pending /\ length (issued m') = S (length (issued m) + length (provider m))) \/
  (r <> Pending /\
   (length (issued m') + length (provider m') = length (issued m) + length (provider m))%nat).
Proof.
  intros G.
  destruct G as [r0 m1 D Hnd | d m1 e D Hi | d m1 ins e D Hi Hp | d m1 ins parts r0 m2 D Hi Hp HS];
    destruct (describes_balance _ _ _ _ _ _ D) as [[E H] | [Hn H]]; try discriminate.
  - subst r0. left. split; [reflexivity | exact H].
  - right. split; [|exact H]. destruct r0 as [d|e|]; [destruct (Hnd d eq_refl) | discriminate | congruence].
  - right. split; [discriminate | exact H].
  - right. split; [discriminate | exact H].
  - destruct (settles_balance _ _ _ _ _ HS) as [[-> H2] | [Hn2 H2]].
    + left. split; [reflexivity | lia].
    + right. destruct r0 as [response0|e|]; [|split; [discriminate | lia] | congruence].
      split; [discriminate|]. cbn. lia.
Qed.

Lemma generates_res model request c m r m' :
  generates model request c m r m' ->
  res m = fresh_response ->
  forwarded m' = forwarded m /\
  ((r = Done tt /\ issued m' <> issued m /\
    exists t, res m' = response 200 (JSON_stringify (model_envelope t))) \/
   (r <> Done tt /\ res m' = fresh_response)).
Proof.
  intros G Hres.
  assert (Hd : forall r0 m1, describes model request c m r0 m1 ->
                 res m1 = res m /\ forwarded m1 = forwarded m /\
                 exists calls, issued m1 = (issued m ++ calls)%list).
  { intros r0 m1 D. destruct D; try (repeat split; auto; exists []; now rewrite app_nil_r).
    match goal with H : settles _ _ _ _ _ |- _ => destruct H; cbn; eauto end. }
  destruct G as [r0 m1 D Hnd | d m1 e D Hi | d m1 ins e D Hi Hp | d m1 ins parts r0 m2 D Hi Hp HS];
    destruct (Hd _ _ D) as (Hr & Hf & calls & Hcalls).
  - split; [exact Hf|]. right. split; [apply passes_not_done | congruence].
  - split; [exact Hf|]. right. split; [discriminate | congruence].
  - split; [exact Hf|]. right. split; [discriminate | congruence].
  - assert (Hs : res m2 = res m1 /\ forwarded m2 = forwarded m1 /\
                 issued m2 = (issued m1 ++ [(c, a2ui_call model parts)])%list)
      by (destruct HS; auto).
    destruct Hs as (Hr2 & Hf2 & Hi2).
    destruct r0 as [response0|e|].
    + split; [cbn; congruence|]. left. split; [reflexivity|]. split.
      * cbn. rewrite Hi2, Hcalls. intros E. apply (f_equal (@length _)) in E.
        rewrite !length_app in E. cbn in E. lia.
      * exists (OpenAI.first_content response0). unfold answer, response. cbn.
        rewrite Hr2, Hr, Hres. reflexivity.
    + split; [congruence|]. right. split; [discriminate | congruence].
    + split; [congruence|]. right. split; [discriminate | congruence].
Qed.

Lemma generates_pattern model request c m r m' :
  generates model request c m r m' ->
  exists calls, issued m' = (issued m ++ calls)%list /\ call_pattern c model calls.
Proof.
  assert (Hd : forall r0 m1, describes model request c m r0 m1 ->
                 issued m1 = issued m \/
                 exists parts, issued m1 = (issued m ++ [(c, image_call model parts)])%list).
  { intros r0 m1 D. destruct D; auto.
    match goal with H : settles _ _ _ _ _ |- _ => destruct H; cbn; eauto end. }
  intros G.
  destruct G as [r0 m1 D Hnd | d m1 e D Hi | d m1 ins e D Hi Hp | d m1 ins parts r0 m2 D Hi Hp HS].
  1-3: destruct (Hd _ _ D) as [-> | (parts & ->)];
       [exists []; rewrite app_nil_r; split; [reflexivity | constructor]
       | eexists; split; [reflexivity | constructor]].
  assert (Hiss : issued (match r0 with
                         | Done response0 =>
                             answer 200
                               (JSON_stringify (model_envelope (OpenAI.first_content response0))) m2
                         | _ => m2
                         end) = (issued m1 ++ [(c, a2ui_call model parts)])%list).
  { destruct HS; reflexivity. }
  rewrite Hiss.
  destruct (Hd _ _ D) as [-> | (parts1 & ->)].
  - eexists; split; [reflexivity | constructor].
  - rewrite <- app_assoc. eexists; split; [reflexivity | constructor].
Qed.

(** The [try] block either runs the generation path, on a stored
    catalog, or makes no call. *)
Lemma dispatch_cases model text m :
  (exists request,
      truthy (catalog m) = true /\ dispatch model text m = generate model request m) \/
  (exists e, dispatch model text m = (Thrown e, m)) \/
  (fst (dispatch model text m) = Done tt /\
   issued (snd (dispatch model text m)) = issued m /\
   provider (snd (dispatch model text m)) = provider m /\
   forwarded (snd (dispatch model text m)) = forwarded m /\
   (res (snd (dispatch model text m)) = res m \/
    res (snd (dispatch model text m)) = res (answer 200 ACK_BODY m) \/
    res (snd (dispatch model text m)) = res (answer 400 NO_CATALOG_BODY m))).
Proof.
  unfold dispatch, bind.
  destruct (JSON_parse text) as [e|payload] eqn:Hp; [right; left; cbn; eauto|].
  cbn [lift ret].
  destruct (get_prop (Some payload) "clientUiCapabilities") as [e|caps] eqn:Hc;
    [right; left; cbn; eauto|].
  destruct (get_prop_total _ _ "userAction" _ Hc) as [ua Hua].
  destruct (get_prop_total _ _ "request" _ Hc) as [request Hr].
  rewrite Hua, Hr. cbn [lift ret read_catalog].
  destruct (truthy caps) eqn:Tc; cbn [orb].
  - right. destruct caps as [[| b | mant ex | s | items | fields]|]; cbn; eauto 10.
    destruct (assoc "dynamicCatalog" fields); cbn; auto 10.
  - destruct (truthy ua); [right; right; cbn; auto 10|].
    destruct (truthy request) eqn:Tr; cbn [negb orb]; [|right; right; cbn; auto 10].
    destruct (truthy (catalog m)) eqn:Tcat; cbn [negb]; [|right; right; cbn; auto 10].
    destruct (isObject request); [left; eauto | right; left; eauto].
Qed.

(** What one request leaves behind, whatever it is. *)
Lemma serve_outcome m x :
  exists c,
    client (snd (serve m x)) = Some c /\
    call_pattern c (select_model (env x)) (issued (snd (serve m x))) /\
    forwarded (snd (serve m x)) = negb (String.eqb (method (req x)) "POST") /\
    ((fst (serve m x) = Done tt /\
      (length (issued (snd (serve m x))) <= length (outcomes x))%nat /\
      enveloped (res (snd (serve m x))) /\
      (issued (snd (serve m x)) <> [] -> res (snd (serve m x)) <> fresh_response) /\
      (truthy (catalog m) = false ->
       issued (snd (serve m x)) = [] /\
       (res (snd (serve m x)) = fresh_response \/
        res (snd (serve m x)) = response 200 ACK_BODY \/
        exists detail,
          res (snd (serve m x)) = response 400 (JSON_stringify (error_envelope detail))))) \/
     (fst (serve m x) = Pending /\
      res (snd (serve m x)) = fresh_response /\
      length (issued (snd (serve m x))) = S (length (outcomes x)) /\
      truthy (catalog m) = true)).
Proof.
  destruct (ready_fields x m) as (Hres & Hfw & Hiss & Hprov).
  destruct (ready_client x m) as [c Hc].
  exists c. split; [rewrite serve_client; exact Hc|].
  destruct (String.eqb_spec (method (req x)) "POST") as [HP|HP].
  2: { rewrite (serve_other _ _ HP). cbn. rewrite Hres, Hiss.
       split; [constructor|]. split; [reflexivity|]. left.
       split; [reflexivity|]. split; [cbn; lia|]. split; [constructor|].
       split; [congruence | auto]. }
  rewrite (serve_post _ _ HP), on_end_caught.
  destruct (dispatch_cases (select_model (env x)) (contents (req x)) (ready x m))
    as [(request & Tcat & ->) | [(e & ->) | (Hdone & Hi & Hpr & Hf & Hshape)]].
  - rewrite ready_catalog in Tcat.
    pose proof (generate_generates (select_model (env x)) request (ready x m) c Hc) as G.
    destruct (generates_pattern _ _ _ _ _ _ G) as (calls & Hcalls & Hpat).
    destruct (generates_res _ _ _ _ _ _ G Hres) as [Hf Hr].
    pose proof (generates_balance _ _ _ _ _ _ G) as Hb.
    rewrite Hiss, Hprov in *. cbn [app] in Hcalls.
    destruct (generate (select_model (env x)) request (ready x m)) as [[[]|e|] m1];
      cbn [fst snd caught] in *.
    + split; [rewrite Hcalls; exact Hpat|]. split; [cbn; congruence|]. left.
      destruct Hr as [(_ & Hne & t & Ht) | [Hn _]]; [|congruence].
      destruct Hb as [[Hb _] | [_ Hb]]; [discriminate|].
      split; [reflexivity|]. split; [cbn in Hb; lia|]. rewrite Ht.
      split; [constructor|]. split; [discriminate | congruence].
    + split; [cbn; rewrite Hcalls; exact Hpat|]. split; [cbn; congruence|]. left.
      destruct Hr as [(Hd & _) | [_ Hr]]; [discriminate|].
      destruct Hb as [[Hb _] | [_ Hb]]; [discriminate|].
      split; [reflexivity|]. split; [cbn in *; lia|].
      unfold answer. cbn. rewrite Hr. cbn.
      split; [apply (enveloped_error (toString e))|]. split; [discriminate | congruence].
    + split; [rewrite Hcalls; exact Hpat|]. split; [cbn; congruence|]. right.
      destruct Hr as [(Hd & _) | [_ Hr]]; [discriminate|].
      destruct Hb as [[_ Hb] | [Hb _]]; [|congruence].
      split; [reflexivity|]. split; [exact Hr|]. split; [cbn in Hb; exact Hb | exact Tcat].
  - cbn [fst snd caught]. unfold answer. cbn. rewrite Hres, Hiss, Hfw. cbn.
    split; [constructor|]. split; [reflexivity|]. left.
    split; [reflexivity|]. split; [lia|].
    split; [apply (enveloped_error (toString e))|].
    split; [congruence|]. intros _. split; [reflexivity|]. right. right.
    exists (toString e). reflexivity.
  - destruct (dispatch (select_model (env x)) (contents (req x)) (ready x m)) as [r m1].
    cbn [fst snd] in *. subst r. cbn [caught snd fst].
    rewrite Hi, Hiss, Hf, Hfw.
    split; [constructor|]. split; [reflexivity|]. left.
    split; [reflexivity|]. split; [cbn; lia|].
    assert (Hcases : res m1 = fresh_response \/ res m1 = response 200 ACK_BODY \/
                     res m1 = response 400 (JSON_stringify (error_envelope "No payload or catalog"))).
    { destruct Hshape as [-> | [-> | ->]]; unfold answer; cbn; rewrite Hres; auto. }
    split; [|split; [congruence|]].
    + destruct Hcases as [-> | [-> | ->]];
        [constructor | apply (enveloped_model "Dynamic Catalog Received") | constructor].
    + intros _. split; [reflexivity|].
      destruct Hcases as [-> | [-> | ->]]; eauto.
Qed.



End Runs.

(** ** Bodies and data URIs *)

Lemma model_envelope_parses_back t :
  JSON_parse (JSON_stringify (model_envelope t)) = inr (model_envelope t).
Proof.
  rewrite stringify_model_envelope. unfold JSON_parse.
  rewrite parse_model_body; [reflexivity|].
  unfold MODEL_BODY. rewrite length_append. cbn [sq String.length Ascii.eqb Bool.eqb]. lia.
Qed.

Lemma error_envelope_parses_back detail :
  JSON_parse (JSON_stringify (error_envelope detail)) = inr (error_envelope detail).
Proof.
  rewrite stringify_error_envelope. unfold JSON_parse.
  rewrite parse_error_body; [reflexivity|].
  unfold ERROR_BODY. rewrite length_append. cbn [sq String.length Ascii.eqb Bool.eqb]. lia.
Qed.



Lemma truthy_str_not_empty s : truthy_str (Some s) = true -> s <> "".
Proof. cbn. destruct (String.eqb_spec s ""); [discriminate | auto]. Qed.

(** ** The properties *)

(** X1. Whatever the request and whatever the module holds, the response
    object ends in one of three states: nothing was written; status 200,
    the JSON content type set once and a body that is a model envelope;
    or status 400, the JSON content type set once and a body that is an
    error envelope whose text starts with [Invalid message - ]. No path
    writes a second header or another status. *)
Theorem every_response_is_an_envelope :
  forall (collaborators : Collaborators) (m : machine) (x : exchange),
    res (snd (serve m x)) = fresh_response \/
    (exists t,
        res (snd (serve m x)) = response 200 (JSON_stringify (model_envelope t))) \/
    (exists detail,
        res (snd (serve m x)) = response 400 (JSON_stringify (error_envelope detail))).
Proof.
  intros C m x.
  destruct (serve_outcome m x) as (c & _ & _ & _ & [(_ & _ & Henv & _) | (_ & Hres & _)]).
  - destruct Henv; eauto.
  - left. exact Hres.
Qed.

(** X2. Every body the handler sends is a JSON text that [JSON.parse]
    reads back as the very object it was made from, whatever characters
    the model's text or the error's text contains: with status 200 the
    object [{role: "model", parts: [{text}]}], with status 400 the object
    [{error}]. *)
Theorem sent_bodies_parse_back :
  forall (collaborators : Collaborators) (m : machine) (x : exchange) (body : string),
    sent (res (snd (serve m x))) = Some body ->
    exists v,
      JSON_parse body = inr v /\
      JSON_stringify v = body /\
      ((statusCode (res (snd (serve m x))) = 200%Z /\ exists t, v = model_envelope t) \/
       (statusCode (res (snd (serve m x))) = 400%Z /\ exists detail, v = error_envelope detail)).
Proof.
  intros C m x body Hsent.
  destruct (serve_outcome m x) as (c & _ & _ & _ & [(_ & _ & Henv & _) | (_ & Hres & _)]).
  - destruct Henv as [| t | detail]; cbn in Hsent; [discriminate | |];
      injection Hsent as <-.
    + exists (model_envelope t). split; [apply model_envelope_parses_back|].
      split; [reflexivity|]. left. split; [reflexivity | eauto].
    + exists (error_envelope detail). split; [apply error_envelope_parses_back|].
      split; [reflexivity|]. right. split; [reflexivity | eauto].
  - rewrite Hres in Hsent. discriminate.
Qed.

(** The refusal of the first request of a process parses back. *)
Lemma sent_bodies_parse_back_witness :
  exists v,
    JSON_parse NO_CATALOG_BODY = inr v /\
    JSON_stringify v = NO_CATALOG_BODY /\
    ((statusCode (res (snd (@serve sample_collaborators boot hello_request))) = 200%Z /\
      exists t, v = model_envelope t) \/
     (statusCode (res (snd (@serve sample_collaborators boot hello_request))) = 400%Z /\
      exists detail, v = error_envelope detail)).
Proof.
  apply (sent_bodies_parse_back sample_collaborators boot hello_request NO_CATALOG_BODY).
  reflexivity.
Defined.

(** X3. A request whose method is not POST is handed to the next
    middleware and nothing else happens to it: no response is written, no
    model is called and the catalog stays as it was. The provider client
    is built all the same, the lazy initialisation coming before the
    test of the method. *)
Theorem other_methods_are_passed_on :
  forall (collaborators : Collaborators) (m : machine) (x : exchange),
    method (req x) <> "POST" ->
    fst (serve m x) = Done tt /\
    forwarded (snd (serve m x)) = true /\
    res (snd (serve m x)) = fresh_response /\
    issued (snd (serve m x)) = [] /\
    catalog (snd (serve m x)) = catalog m /\
    (client m = None ->
     client (snd (serve m x)) = Some (OpenAI.new (credential (env x)) (endpoint (env x)))).
Proof.
  intros C m x HP.
  destruct (ready_fields x m) as (Hres & Hfw & Hiss & Hprov).
  rewrite (serve_other _ _ HP). cbn. rewrite Hres, Hiss, ready_catalog.
  repeat split. intros Hn. unfold ready. apply init_client_fresh. exact Hn.
Qed.

(** A GET request that is the first request of the process. *)
Lemma other_methods_are_passed_on_witness :
  forwarded (snd (@serve sample_collaborators boot get_request)) = true /\
  client (snd (@serve sample_collaborators boot get_request)) = Some (OpenAI.new "sk-test" None).
Proof.
  destruct (other_methods_are_passed_on sample_collaborators boot get_request)
    as (_ & Hf & _ & _ & _ & Hc).
  - discriminate.
  - split; [exact Hf | apply Hc; reflexivity].
Defined.

(** X4. A POST request is never handed to the next middleware, on any
    path: acknowledged, refused, answered, failed, left without a
    response or still waiting for the provider. *)
Theorem a_post_is_never_passed_on :
  forall (collaborators : Collaborators) (m : machine) (x : exchange),
    method (req x) = "POST" ->
    forwarded (snd (serve m x)) = false.
Proof.
  intros C m x HP.
  destruct (serve_outcome m x) as (c & _ & _ & Hf & _).
  rewrite Hf, HP. reflexivity.
Qed.

Lemma a_post_is_never_passed_on_witness :
  forwarded (snd (@serve sample_collaborators announced hello_request)) = false.
Proof.
  apply (a_post_is_never_passed_on sample_collaborators announced hello_request).
  reflexivity.
Defined.

(** X5. A POST payload with a truthy [userAction] and no truthy
    [clientUiCapabilities] is dropped in silence: the handler returns
    without writing a response, success or error, calls no model and
    leaves the catalog alone, whether or not a catalog is stored and
    whatever else the payload carries. *)
Theorem user_actions_are_dropped :
  forall (collaborators : Collaborators) (m : machine) (x : exchange)
         (payload : json) (clientUiCapabilities userAction : value),
    method (req x) = "POST" ->
    JSON_parse (contents (req x)) = inr payload ->
    get_prop (Some payload) "clientUiCapabilities" = inr clientUiCapabilities ->
    truthy clientUiCapabilities = false ->
    get_prop (Some payload) "userAction" = inr userAction ->
    truthy userAction = true ->
    fst (serve m x) = Done tt /\
    res (snd (serve m x)) = fresh_response /\
    forwarded (snd (serve m x)) = false /\
    issued (snd (serve m x)) = [] /\
    catalog (snd (serve m x)) = catalog m.
Proof.
  intros C m x payload caps ua HP Hp Hc Tc Hua Tua.
  destruct (ready_fields x m) as (Hres & Hfw & Hiss & Hprov).
  rewrite (serve_post _ _ HP).
  rewrite (on_end_user_action _ _ _ _ _ _ Hp Hc Tc Hua Tua). cbn [fst snd].
  rewrite Hres, Hfw, Hiss, ready_catalog. auto.
Qed.

(** A tap reported once the catalog is stored. *)
Lemma user_actions_are_dropped_witness :
  res (snd (@serve sample_collaborators announced user_action)) = fresh_response /\
  issued (snd (@serve sample_collaborators announced user_action)) = [].
Proof.
  destruct (user_actions_are_dropped sample_collaborators announced user_action
              (JObj [("userAction", JObj [("name", JStr "tap")])])
              None (Some (JObj [("name", JStr "tap")])))
    as (_ & Hres & _ & Hiss & _); try reflexivity.
  split; assumption.
Defined.




(** X8. On every path, failures included, the calls of one request form
    one of four patterns: none, the image call alone, the generation call
    alone, or the image call followed by the generation call. There are
    never more than two, never the generation call first, and each goes
    through the client of the module with the model selected for the
    request. *)
Theorem calls_follow_one_pattern :
  forall (collaborators : Collaborators) (m : machine) (x : exchange),
    exists c,
      client (snd (serve m x)) = Some c /\
      call_pattern c (select_model (env x)) (issued (snd (serve m x))) /\
      (length (issued (snd (serve m x))) <= 2)%nat.
Proof.
  intros C m x.
  destruct (serve_outcome m x) as (c & Hc & Hpat & _).
  exists c. split; [exact Hc|]. split; [exact Hpat|].
  destruct Hpat; cbn; lia.
Qed.

(** X9. While no truthy catalog is stored, no request of any kind
    reaches the model, and the only success the handler reports is the
    acknowledgement of an announcement; every other response is a 400. *)
Theorem nothing_is_generated_before_a_catalog :
  forall (collaborators : Collaborators) (m : machine) (x : exchange),
    truthy (catalog m) = false ->
    fst (serve m x) = Done tt /\
    issued (snd (serve m x)) = [] /\
    (res (snd (serve m x)) = fresh_response \/
     res (snd (serve m x)) = response 200 ACK_BODY \/
     exists detail,
       res (snd (serve m x)) = response 400 (JSON_stringify (error_envelope detail))).
Proof.
  intros C m x Hcat.
  destruct (serve_outcome m x)
    as (c & _ & _ & _ & [(Hd & _ & _ & _ & Hclosed) | (_ & _ & _ & Tcat)]).
  - destruct (Hclosed Hcat) as [Hi Hr]. auto.
  - congruence.
Qed.

(** The first request of a process calls no model. *)
Lemma nothing_is_generated_before_a_catalog_witness :
  issued (snd (@serve sample_collaborators boot hello_request)) = [].
Proof.
  destruct (nothing_is_generated_before_a_catalog sample_collaborators boot hello_request)
    as (_ & Hi & _).
  - reflexivity.
  - exact Hi.
Defined.

(** X10. The handler never throws and has two ways to end. Either every
    call it made was settled by the provider, and the listener returns;
    or the last call it made is still unsettled, and then the request
    stays open with nothing written: there is no timeout. *)
Theorem request_hangs_only_on_an_unsettled_call :
  forall (collaborators : Collaborators) (m : machine) (x : exchange),
    (fst (serve m x) = Done tt /\
     (length (issued (snd (serve m x))) <= length (outcomes x))%nat) \/
    (fst (serve m x) = Pending /\
     res (snd (serve m x)) = fresh_response /\
     length (issued (snd (serve m x))) = S (length (outcomes x))).
Proof.
  intros C m x.
  destruct (serve_outcome m x)
    as (c & _ & _ & _ & [(Hd & Hlen & _) | (Hp & Hres & Hlen & _)]); auto.
Qed.



(** X12. Whatever the MIME pattern extracts from a text is a part of the
    text that stands between an occurrence of [data:] and a semicolon,
    and holds no line terminator. *)
Theorem mime_type_is_a_single_line_before_a_semicolon :
  forall (s m : string),
    exec_data_mime s = Some m ->
    single_line m = true /\
    exists before after, s = before ++ "data:" ++ m ++ ";" ++ after.
Proof.
  induction s as [|c t IH]; intros m H; [discriminate|].
  cbn [exec_data_mime] in H.
  destruct (String.prefix "data:" (String c t)) eqn:Hp.
  - destruct (capture_upto_semicolon (drop 5 (String c t))) as [p|] eqn:Hcap.
    + injection H as <-. destruct (capture_sound _ _ Hcap) as (Hs & post & Hpost).
      split; [exact Hs|]. exists "", post.
      rewrite (prefix_split "data:" _ Hp). cbn [String.length]. rewrite Hpost. reflexivity.
    + destruct (IH m H) as (Hs & before & after & ->).
      split; [exact Hs|]. exists (String c before), after. reflexivity.
  - destruct (IH m H) as (Hs & before & after & ->).
    split; [exact Hs|]. exists (String c before), after. reflexivity.
Qed.

Lemma mime_type_is_a_single_line_before_a_semicolon_witness :
  single_line "image/png" = true /\
  exists before after,
    "data:image/png;base64,AAAA" = before ++ "data:" ++ "image/png" ++ ";" ++ after.
Proof.
  apply (mime_type_is_a_single_line_before_a_semicolon "data:image/png;base64,AAAA").
  reflexivity.
Defined.





(** X15. The check of [plugin()] and the lazy initialisation read the
    credential the same way, and an empty text counts as unset
    everywhere: under an environment in which the plugin can be built,
    the client built by the first request has a key that is not empty,
    its base URL is absent or not empty, and the model named in the calls
    is not empty. *)
Theorem no_setting_is_ever_empty :
  forall (collaborators : Collaborators) (x : exchange) (p : Plugin),
    plugin (env x) = inr p ->
    exists c,
      client (snd (serve boot x)) = Some c /\
      OpenAI.apiKey c <> "" /\
      OpenAI.baseURL c <> Some "" /\
      select_model (env x) <> "".
Proof.
  intros C x p Hp.
  exists (OpenAI.new (credential (env x)) (endpoint (env x))).
  split; [rewrite serve_client; unfold ready; apply init_client_fresh; reflexivity|].
  cbn [OpenAI.apiKey OpenAI.baseURL].
  unfold plugin, or_else in Hp. unfold credential, endpoint, select_model, is_set, or_else.
  repeat split.
  - destruct (env x !! "OPENAI_API_KEY") as [k|] eqn:Ek.
    + destruct (truthy_str (Some k)) eqn:Tk; [apply truthy_str_not_empty, Tk|].
      destruct (env x !! "GEMINI_API_KEY") as [g|] eqn:Eg.
      * destruct (truthy_str (Some g)) eqn:Tg; [apply truthy_str_not_empty, Tg | discriminate].
      * discriminate.
    + cbn [truthy_str] in *.
      destruct (env x !! "GEMINI_API_KEY") as [g|] eqn:Eg.
      * destruct (truthy_str (Some g)) eqn:Tg; [apply truthy_str_not_empty, Tg | discriminate].
      * discriminate.
  - destruct (env x !! "OPENAI_BASE_URL") as [u|] eqn:Eu.
    + destruct (truthy_str (Some u)) eqn:Tu.
      * intros E. injection E as ->. discriminate.
      * destruct (_ && _); discriminate.
    + cbn [truthy_str]. destruct (_ && _); discriminate.
  - destruct (env x !! "AI_MODEL") as [a|] eqn:Ea.
    + destruct (truthy_str (Some a)) eqn:Ta; [apply truthy_str_not_empty, Ta|].
      cbn. destruct (_ && _); discriminate.
    + cbn. destruct (_ && _); discriminate.
Qed.

Lemma no_setting_is_ever_empty_witness :
  exists c,
    client (snd (@serve sample_collaborators boot hello_request)) = Some c /\
    OpenAI.apiKey c <> "" /\
    OpenAI.baseURL c <> Some "" /\
    select_model (env hello_request) <> "".
Proof.
  apply (no_setting_is_ever_empty sample_collaborators hello_request
           {| name := "custom-ai-handler"; route := "/a2ui" |}).
  reflexivity.
Defined.

(** X16. A generation request whose [imageData] is truthy and is not a
    text, a number or an object for instance, fails on the call of
    [startsWith]: it is answered 400 with the text of the TypeError, and
    no model is called. *)
Theorem non_text_image_data_is_a_type_error :
  forall (collaborators : Collaborators) (m : machine) (x : exchange)
         (request imageData : value),
    generation_request x request ->
    truthy request = true ->
    truthy (catalog m) = true ->
    isObject request = true ->
    get_prop request "imageData" = inr imageData ->
    truthy imageData = true ->
    (forall s, imageData <> Some (JStr s)) ->
    fst (serve m x) = Done tt /\
    res (snd (serve m x)) = response 400 NOT_A_STRING_BODY /\
    issued (snd (serve m x)) = [].
Proof.
  intros C m x request imageData Hg Tr Tcat Hobj Hi Ti Hns.
  destruct (ready_fields x m) as (Hres & Hfw & Hiss & Hprov).
  rewrite (serve_generation m x request Hg Tr Tcat), Hobj.
  unfold generate, describe, bind. rewrite Hi. cbn [lift ret].
  destruct imageData as [[| b | mant ex | s | items | fields]|];
    try discriminate Ti; try (destruct (Hns s eq_refl));
    rewrite ?Ti; cbn; rewrite Hres, Hiss; auto.
Qed.

Lemma non_text_image_data_is_a_type_error_witness :
  res (snd (@serve sample_collaborators announced numeric_image_request))
  = response 400 NOT_A_STRING_BODY.
Proof.
  apply (non_text_image_data_is_a_type_error sample_collaborators announced
           numeric_image_request
           (Some (JObj [("instructions", JStr "hello"); ("imageData", JNum 5 0)]))
           (Some (JNum 5 0))).
  - split; [reflexivity|]. eexists _, _, _. repeat split; reflexivity.
  - reflexivity.
  - reflexivity.
  - reflexivity.
  - reflexivity.
  - reflexivity.
  - intros s. discriminate.
Defined.
